(** * trainer_single.py: a GAN estimator template, embedded and verified

    The script [tpu/templates/tpu_gan_estimator/trainer_single.py] is glue
    code over TensorFlow 1.x: every statement of it is a call into the
    framework (or into argparse).  The embedding therefore has three layers.

    - Python values, the [args] namespace and the [params] dictionary.
    - A free monad [prog] of framework calls.  A program is a tree of
      [Invoke] nodes; running it against a failure oracle yields the trace
      of calls made and either a result or the exception that escaped.
      The monad also has Python's [try/except] and [with] so that "the
      script has no handler" is a property a program could fail to have.
    - The functions of the script, written in that monad in the order of
      the source, and a reference semantics for the two framework
      constructs whose run-time behaviour the specification talks about:
      the counting while loop and the input pipeline. *)

From Stdlib Require Import ZArith Lia List Ascii.
From stdpp Require Import gmap strings list.

Local Open Scope string_scope.
Local Open Scope Z_scope.
Local Open Scope list_scope.

(** ** Python values *)

Module Py.

(** The values argparse can put into the namespace of this script. *)
Inductive pyval : Type :=
| PNone
| PBool (b : bool)
| PInt (n : Z)
| PStr (s : string).

#[global] Instance pyval_eq_dec : EqDecision pyval.
Proof. solve_decision. Defined.

(** Python truthiness, as used by [if params['use_tpu']:]. *)
Definition truthy (v : pyval) : bool :=
  match v with
  | PNone => false
  | PBool b => b
  | PInt n => negb (Z.eqb n 0)
  | PStr s => negb (String.eqb s EmptyString)
  end.

(** A float literal of the source, kept as written: [mantissa * 10^exponent]. *)
Record float_lit : Type := FloatLit { mantissa : Z; exponent : Z }.

#[global] Instance float_lit_eq_dec : EqDecision float_lit.
Proof. solve_decision. Defined.

Inductive exn : Type :=
| KeyError (key : string)
| TypeError (msg : string)
| ValueError (msg : string)
| AttributeError (name : string)
| IOError (path : string)
| SystemExit (code : Z)
| FrameworkError (msg : string).

#[global] Instance exn_eq_dec : EqDecision exn.
Proof. solve_decision. Defined.

Inductive outcome (A : Type) : Type :=
| Ok (a : A)
| Raise (e : exn).
Arguments Ok {A} a.
Arguments Raise {A} e.

Definition is_ok {A} (o : outcome A) : bool :=
  match o with Ok _ => true | Raise _ => false end.

End Py.
Export Py.

(** ** The graph objects the framework hands back

    TensorFlow 1.x builds a graph: a framework call returns a symbolic node,
    not a number.  The nodes below are the ones this script creates. *)

Module Graph.

(** A static shape; [None] is a dimension unknown at graph-build time. *)
Definition shape : Type := list (option Z).

Inductive scalar : Type :=
| SInt (n : Z)
| SFloat (x : float_lit).

Inductive optimizer : Type :=
| RMSProp (learning_rate : float_lit)
| CrossShard (inner : optimizer).

#[warnings="-register-all"]
Inductive tensor : Type :=
| Placeholder (name : string) (sh : shape)
| Const (v : scalar)
| Dense (id : nat) (inputs : tensor) (units : Z)
| Less (a b : tensor)
| Add (a b : tensor)
| LoopVar (k : nat)
| GeneratorLoss (dis_gen_outputs : tensor)
| DiscriminatorLoss (dis_real_outputs dis_gen_outputs : tensor)
| TrainOp (opt : optimizer) (loss : tensor)
| GlobalStep
| AssignAdd (var : tensor) (delta : Z)
| LoopOutput (tpu : bool) (cond : tensor) (body : list tensor)
             (inputs : list tensor) (k : nat)
| Group (inputs : list tensor)
| RandomNormal (id : nat) (dims : list Z)
| RandomUniform (id : nat) (dims : list Z).

(** What [tf.contrib.gan.gan_model] returns (a GANModel tuple). *)
Record gan_model_t : Type := GANModel {
  generator_inputs : tensor;
  generated_data : tensor;
  real_data : tensor;
  discriminator_real_outputs : tensor;
  discriminator_gen_outputs : tensor
}.

(** What [tf.contrib.gan.gan_loss] returns (a GANLoss tuple). *)
Record gan_loss_t : Type := GANLoss {
  generator_loss : tensor;
  discriminator_loss : tensor
}.

(** What [tf.contrib.gan.gan_train_ops] returns (a GANTrainOps tuple). *)
Record gan_train_ops_t : Type := GANTrainOps {
  generator_train_op : tensor;
  discriminator_train_op : tensor
}.

Inductive mode_key : Type := TRAIN | EVAL | PREDICT.

#[global] Instance mode_key_eq_dec : EqDecision mode_key.
Proof. solve_decision. Defined.

(** The two classes [model_fn] can instantiate. *)
Inductive spec_class : Type := TPUEstimatorSpec | EstimatorSpec.

Record estimator_spec : Type := Spec {
  spec_cls : spec_class;
  spec_mode : mode_key;
  predictions : tensor;
  loss : option tensor;
  train_op : option tensor
}.

(** An element component as the input pipeline's map function sees it: the
    position in the element tuple and the (mutable) static shape. *)
Record component : Type := Component { comp_index : nat; comp_shape : shape }.

(** The [tf.data] pipeline stages the script uses. *)
Inductive dataset : Type :=
| FromTensorSlices (first second : tensor)
| Repeat (d : dataset)
| Shuffle (d : dataset) (buffer_size : Z)
| Batch (d : dataset) (batch_size : Z) (drop_remainder : bool)
| Map (d : dataset) (out_first out_second : component)
| Prefetch (d : dataset) (buffer_size : Z).

Record tpu_config : Type := TPUConfig {
  num_shards : Z;
  iterations_per_loop : pyval
}.

(** [tf.contrib.tpu.RunConfig] and [tf.estimator.RunConfig]. *)
Inductive run_config : Type :=
| TPURunConfig (cluster : pyval) (model_dir : pyval) (tpu_cfg : tpu_config)
               (save_checkpoints_steps : pyval) (save_summary_steps : Z)
| PlainRunConfig (model_dir : pyval) (save_checkpoints_steps : pyval)
                 (save_summary_steps : Z).

(** [tf.contrib.tpu.TPUEstimator] and [tf.estimator.Estimator]; the model
    function is recorded by name. *)
Inductive estimator : Type :=
| TPUEstimator (model_fn : string) (config : run_config)
               (params : gmap string pyval) (train_batch_size : pyval)
               (eval_batch_size : Z) (export_to_tpu : bool)
| Estimator (model_fn : string) (config : run_config)
            (params : gmap string pyval).

End Graph.
Export Graph.

(** ** Framework calls and the monad of programs *)

Module Effects.

(** One constructor per framework (or standard-library) entry point the
    script calls, with the arguments the theorems below talk about. *)
Inductive call : Type :=
| Call_get_global_step
| Call_dense (units : Z)
| Call_gan_model
| Call_gan_loss (add_summaries : bool)
| Call_RMSPropOptimizer (learning_rate : float_lit)
| Call_CrossShardOptimizer (inner : optimizer)
| Call_gan_train_ops (gen_opt dis_opt : optimizer)
| Call_constant (v : scalar)
| Call_less
| Call_add
| Call_while_loop (tpu : bool)
| Call_assign_add (delta : Z)
| Call_group
| Call_spec (cls : spec_class)
| Call_random_normal (dims : list Z)
| Call_random_uniform (dims : list Z)
| Call_from_tensor_slices
| Call_repeat
| Call_shuffle (buffer_size : Z)
| Call_batch (batch_size : pyval) (drop_remainder : bool)
| Call_map
| Call_prefetch (buffer_size : Z)
| Call_TPUClusterResolver (tpu : pyval)
| Call_TPUConfig (cfg : tpu_config)
| Call_RunConfig (cfg : run_config)
| Call_Estimator (est : estimator)
| Call_train (est : estimator) (input_fn : string) (steps : Z)
| Call_authenticate_user
| Call_Session (target : string)
| Call_Session_exit (target : string)
| Call_open (path : string)
| Call_json_load
| Call_configure_gcs (target : string) (credentials : string).

(** The failure oracle: given the calls made so far (most recent first) and
    the call about to be made, the exception the framework raises there, if
    any. *)
Definition oracle : Type := list call -> call -> option exn.

Definition no_failure : oracle := fun _ _ => None.

(** Programs.  [Invoke c k] makes the framework call [c]; [k] receives the
    call's sequence number, which names the graph node it creates.
    [TryCatch] is [try: body / except: handler]; [Finally] is the
    [with] statement after [__enter__], whose [__exit__] runs on both
    paths and does not swallow the exception. *)
Inductive prog (A : Type) : Type :=
| Ret (a : A)
| Throw (e : exn)
| Invoke (c : call) (k : nat -> prog A)
| TryCatch (B : Type) (body : prog B) (handler : exn -> prog B)
           (k : B -> prog A)
| Finally (B : Type) (body : prog B) (cleanup : prog unit) (k : B -> prog A).
Arguments Ret {A} a.
Arguments Throw {A} e.
Arguments Invoke {A} c k.
Arguments TryCatch {A B} body handler k.
Arguments Finally {A B} body cleanup k.

Fixpoint bind {A B} (p : prog A) (f : A -> prog B) : prog B :=
  match p with
  | Ret a => f a
  | Throw e => Throw e
  | Invoke c k => Invoke c (fun n => bind (k n) f)
  | TryCatch body handler k => TryCatch body handler (fun b => bind (k b) f)
  | Finally body cleanup k => Finally body cleanup (fun b => bind (k b) f)
  end.

(** A framework call whose result is built from its sequence number. *)
Definition invoke {A} (c : call) (result : nat -> A) : prog A :=
  Invoke c (fun n => Ret (result n)).

(** [run raises p h]: the outcome of [p] started after the calls [h] (most
    recent first), and the calls [p] itself made, oldest first. *)
Fixpoint run (raises : oracle) {A} (p : prog A) (h : list call)
  : outcome A * list call :=
  match p with
  | Ret a => (Ok a, [])
  | Throw e => (Raise e, [])
  | Invoke c k =>
      match raises h c with
      | Some e => (Raise e, [c])
      | None =>
          let '(r, t) := run raises (k (length h)) (c :: h) in (r, c :: t)
      end
  | TryCatch body handler k =>
      match run raises body h with
      | (Ok b, t) =>
          let '(r, t') := run raises (k b) (rev_append t h) in (r, t ++ t')
      | (Raise e, t) =>
          match run raises (handler e) (rev_append t h) with
          | (Ok b, t1) =>
              let '(r, t2) :=
                run raises (k b) (rev_append t1 (rev_append t h)) in
              (r, t ++ t1 ++ t2)
          | (Raise e', t1) => (Raise e', t ++ t1)
          end
      end
  | Finally body cleanup k =>
      match run raises body h with
      | (Ok b, t) =>
          match run raises cleanup (rev_append t h) with
          | (Ok _, t1) =>
              let '(r, t2) :=
                run raises (k b) (rev_append t1 (rev_append t h)) in
              (r, t ++ t1 ++ t2)
          | (Raise e', t1) => (Raise e', t ++ t1)
          end
      | (Raise e, t) =>
          match run raises cleanup (rev_append t h) with
          | (Ok _, t1) => (Raise e, t ++ t1)
          | (Raise e', t1) => (Raise e', t ++ t1)
          end
      end
  end.

(** Only framework calls and a result: no [raise] of the program's own. *)
Fixpoint no_throw {A} (p : prog A) : Prop :=
  match p with
  | Ret _ => True
  | Invoke _ k => forall n, no_throw (k n)
  | Throw _ | TryCatch _ _ _ | Finally _ _ _ => False
  end.

(** Neither a handler nor a [with] block. *)
Fixpoint straight_line {A} (p : prog A) : Prop :=
  match p with
  | Ret _ | Throw _ => True
  | Invoke _ k => forall n, straight_line (k n)
  | TryCatch _ _ _ | Finally _ _ _ => False
  end.

(** No [try/except]; a [with] block is allowed when leaving it only makes
    framework calls. *)
Fixpoint handler_free {A} (p : prog A) : Prop :=
  match p with
  | Ret _ | Throw _ => True
  | Invoke _ k => forall n, handler_free (k n)
  | TryCatch _ _ _ => False
  | Finally body cleanup k =>
      handler_free body /\ no_throw cleanup /\ forall b, handler_free (k b)
  end.

(** The oracle fires at the call [c] that follows the calls [before] in
    a run started after [h]. *)
Definition fails_at (raises : oracle) (h before : list call) (c : call)
    (e : exn) : Prop :=
  raises (rev_append before h) c = Some e.

(** Fail-fast: a failing framework call is the last thing the program
    does, and its exception is the program's outcome. *)
Definition fail_fast {A} (p : prog A) : Prop :=
  forall raises h r before c after e,
    run raises p h = (r, before ++ c :: after) ->
    fails_at raises h before c e ->
    after = [] /\ r = Raise e.

(** The exception of the last call of the trace [t] at which the oracle
    fired, in a run started after [h]. *)
Fixpoint last_failure (raises : oracle) (h t : list call) : option exn :=
  match t with
  | [] => None
  | c :: t' =>
      match last_failure raises (c :: h) t' with
      | Some e => Some e
      | None => raises h c
      end
  end.

(** No recovery and no translation: when framework calls failed, the
    exception of the last one is the program's outcome. *)
Definition no_recovery {A} (p : prog A) : Prop :=
  forall raises h r t e,
    run raises p h = (r, t) ->
    last_failure raises h t = Some e ->
    r = Raise e.

End Effects.
Export Effects.

Notation "x <- p ;; q" := (bind p (fun x => q))
  (at level 20, p at level 99, q at level 200, only parsing).
Notation "p ;;; q" := (bind p (fun _ => q))
  (at level 20, q at level 200, only parsing).

(** ** The framework entry points, as graph builders

    Each definition makes the call (so that it shows in the trace and can
    fail through the oracle) and returns the node the framework returns.
    Validation the framework does internally is the oracle's business. *)

Module TF.

Definition get_global_step : prog tensor :=
  invoke Call_get_global_step (fun _ => GlobalStep).

(** [tf.layers.dense(inputs, units)] *)
Definition dense (inputs : tensor) (units : Z) : prog tensor :=
  invoke (Call_dense units) (fun id => Dense id inputs units).

(** [tf.contrib.gan.gan_model]: builds the generator on the noise, then the
    discriminator on the generated and on the real data. *)
Definition gan_model (generator_fn : tensor -> prog tensor)
    (discriminator_fn : tensor -> tensor -> prog tensor)
    (real generator_in : tensor) : prog gan_model_t :=
  Invoke Call_gan_model (fun _ =>
    generated <- generator_fn generator_in ;;
    dis_gen <- discriminator_fn generated generator_in ;;
    dis_real <- discriminator_fn real generator_in ;;
    Ret (GANModel generator_in generated real dis_real dis_gen)).

Definition gan_loss (model : gan_model_t) (add_summaries : bool)
  : prog gan_loss_t :=
  invoke (Call_gan_loss add_summaries) (fun _ =>
    GANLoss (GeneratorLoss (discriminator_gen_outputs model))
            (DiscriminatorLoss (discriminator_real_outputs model)
                               (discriminator_gen_outputs model))).

Definition RMSPropOptimizer (learning_rate : float_lit) : prog optimizer :=
  invoke (Call_RMSPropOptimizer learning_rate) (fun _ => RMSProp learning_rate).

Definition CrossShardOptimizer (opt : optimizer) : prog optimizer :=
  invoke (Call_CrossShardOptimizer opt) (fun _ => CrossShard opt).

Definition gan_train_ops (model : gan_model_t) (l : gan_loss_t)
    (gen_opt dis_opt : optimizer) : prog gan_train_ops_t :=
  invoke (Call_gan_train_ops gen_opt dis_opt) (fun _ =>
    GANTrainOps (TrainOp gen_opt (generator_loss l))
                (TrainOp dis_opt (discriminator_loss l))).

Definition constant (v : scalar) : prog tensor :=
  invoke (Call_constant v) (fun _ => Const v).

(** [tf.less(a, n)] and [tf.add(a, n)] with a Python integer on the right. *)
Definition less (a : tensor) (n : Z) : prog tensor :=
  invoke Call_less (fun _ => Less a (Const (SInt n))).

Definition add (a : tensor) (n : Z) : prog tensor :=
  invoke Call_add (fun _ => Add a (Const (SInt n))).

(** [tf.while_loop] and [tf.contrib.tpu.while_loop] over two loop
    variables: the framework calls [cond] and [body] once each on the
    formal loop variables to build the loop's graph, and returns one output
    per loop variable. *)
Definition while_loop (tpu : bool) (cond : tensor -> tensor -> prog tensor)
    (body : tensor -> tensor -> prog (tensor * tensor))
    (inputs : list tensor) : prog (list tensor) :=
  Invoke (Call_while_loop tpu) (fun _ =>
    c <- cond (LoopVar 0) (LoopVar 1) ;;
    b <- body (LoopVar 0) (LoopVar 1) ;;
    let loop := LoopOutput tpu c [fst b; snd b] inputs in
    Ret [loop 0%nat; loop 1%nat]).

(** [variable.assign_add(delta)] *)
Definition assign_add (var : tensor) (delta : Z) : prog tensor :=
  invoke (Call_assign_add delta) (fun _ => AssignAdd var delta).

Definition group (inputs : list tensor) : prog tensor :=
  invoke Call_group (fun _ => Group inputs).

(** The constructors of the two spec classes. *)
Definition make_spec (cls : spec_class) (mode : mode_key) (preds : tensor)
    (l t : option tensor) : prog estimator_spec :=
  invoke (Call_spec cls) (fun _ => Spec cls mode preds l t).

Definition random_normal (dims : list Z) : prog tensor :=
  invoke (Call_random_normal dims) (fun id => RandomNormal id dims).

Definition random_uniform (dims : list Z) : prog tensor :=
  invoke (Call_random_uniform dims) (fun id => RandomUniform id dims).

(** Static shapes of the nodes that can feed a dataset. *)
Definition static_shape (t : tensor) : option shape :=
  match t with
  | Placeholder _ sh => Some sh
  | RandomNormal _ dims | RandomUniform _ dims => Some (map Some dims)
  | _ => None
  end.

(** [Dataset.output_shapes] for a two-component dataset. *)
Fixpoint output_shapes (d : dataset) : option (shape * shape) :=
  match d with
  | FromTensorSlices a b =>
      match static_shape a, static_shape b with
      | Some (_ :: sa), Some (_ :: sb) => Some (sa, sb)
      | _, _ => None
      end
  | Repeat d' | Shuffle d' _ | Prefetch d' _ => output_shapes d'
  | Batch d' n drop =>
      match output_shapes d' with
      | Some (sa, sb) =>
          let lead := if drop then Some n else None in
          Some (lead :: sa, lead :: sb)
      | None => None
      end
  | Map _ o1 o2 => Some (comp_shape o1, comp_shape o2)
  end.

Definition from_tensor_slices (a b : tensor) : prog dataset :=
  invoke Call_from_tensor_slices (fun _ => FromTensorSlices a b).

Definition repeat (d : dataset) : prog dataset :=
  invoke Call_repeat (fun _ => Repeat d).

Definition shuffle (d : dataset) (buffer_size : Z) : prog dataset :=
  invoke (Call_shuffle buffer_size) (fun _ => Shuffle d buffer_size).

(** [Dataset.batch]: the batch size has to be an integer. *)
Definition batch (d : dataset) (batch_size : pyval) (drop_remainder : bool)
  : prog dataset :=
  Invoke (Call_batch batch_size drop_remainder) (fun _ =>
    match batch_size with
    | PInt n => Ret (Batch d n drop_remainder)
    | _ => Throw (TypeError "batch_size")
    end).

(** [Dataset.map]: the framework calls the function once, on the formal
    components carrying the upstream static shapes. *)
Definition map_dataset (d : dataset)
    (f : component -> component -> prog (component * component))
  : prog dataset :=
  Invoke Call_map (fun _ =>
    match output_shapes d with
    | Some (sa, sb) =>
        out <- f (Component 0 sa) (Component 1 sb) ;;
        Ret (Map d (fst out) (snd out))
    | None => Throw (ValueError "output_shapes")
    end).

Definition AUTOTUNE : Z := -1.

Definition prefetch (d : dataset) (buffer_size : Z) : prog dataset :=
  invoke (Call_prefetch buffer_size) (fun _ => Prefetch d buffer_size).

(** [Dimension.merge_with] and [TensorShape.merge_with]. *)
Definition merge_dim (a b : option Z) : option (option Z) :=
  match a, b with
  | None, _ => Some b
  | _, None => Some a
  | Some x, Some y => if Z.eqb x y then Some a else None
  end.

Fixpoint merge_shapes (s1 s2 : shape) : option shape :=
  match s1, s2 with
  | [], [] => Some []
  | a :: r1, b :: r2 =>
      match merge_dim a b, merge_shapes r1 r2 with
      | Some d, Some r => Some (d :: r)
      | _, _ => None
      end
  | _, _ => None
  end.

Definition merge_with (s1 s2 : shape) : prog shape :=
  match merge_shapes s1 s2 with
  | Some s => Ret s
  | None => Throw (ValueError "Shapes are not compatible")
  end.

(** A Python list used as a shape: integers and [None]. *)
Fixpoint as_shape (l : list pyval) : prog shape :=
  match l with
  | [] => Ret []
  | v :: r =>
      d <- match v with
           | PInt n => Ret (Some n)
           | PNone => Ret None
           | _ => Throw (TypeError "Dimension")
           end ;;
      s <- as_shape r ;;
      Ret (d :: s)
  end.

(** [tensor.get_shape()] and [tensor.set_shape(s)] on a component. *)
Definition get_shape (c : component) : shape := comp_shape c.

Definition set_shape (c : component) (s : shape) : prog component :=
  s' <- merge_with (comp_shape c) s ;;
  Ret (Component (comp_index c) s').

Definition TPUClusterResolver (tpu : pyval) : prog pyval :=
  invoke (Call_TPUClusterResolver tpu) (fun _ => tpu).

Definition make_TPUConfig (shards : Z) (iterations : pyval) : prog tpu_config :=
  invoke (Call_TPUConfig (TPUConfig shards iterations))
         (fun _ => TPUConfig shards iterations).

Definition make_RunConfig (cfg : run_config) : prog run_config :=
  invoke (Call_RunConfig cfg) (fun _ => cfg).

Definition make_Estimator (est : estimator) : prog estimator :=
  invoke (Call_Estimator est) (fun _ => est).

(** [estimator.train(input_fn, steps=...)] *)
Definition train (est : estimator) (input_fn : string) (steps : Z) : prog unit :=
  invoke (Call_train est input_fn steps) (fun _ => tt).

End TF.

(** ** Run-time meaning of the counting loop

    What executing a [while_loop] node does to its loop variables.  The
    counter is an int32 tensor, so addition wraps. *)

Module LoopSem.

Inductive value : Type :=
| VInt (n : Z)
| VFloat (x : float_lit)
| VBool (b : bool)
| VNode (t : tensor).

Definition wrap32 (n : Z) : Z := (n + 2 ^ 31) mod 2 ^ 32 - 2 ^ 31.

(** The value of a node of the loop's graph, given the loop variables.  A
    train op is a node built outside the loop; it stands for itself. *)
Fixpoint eval (env : list value) (t : tensor) : option value :=
  match t with
  | Const (SInt n) => Some (VInt n)
  | Const (SFloat x) => Some (VFloat x)
  | LoopVar k => nth_error env k
  | Less a b =>
      match eval env a, eval env b with
      | Some (VInt x), Some (VInt y) => Some (VBool (Z.ltb x y))
      | _, _ => None
      end
  | Add a b =>
      match eval env a, eval env b with
      | Some (VInt x), Some (VInt y) => Some (VInt (wrap32 (x + y)))
      | _, _ => None
      end
  | TrainOp _ _ => Some (VNode t)
  | _ => None
  end.

(** One execution of the loop body: the new loop variables. *)
Fixpoint step (env : list value) (body : list tensor) : option (list value) :=
  match body with
  | [] => Some []
  | b :: rest =>
      match eval env b, step env rest with
      | Some v, Some vs => Some (v :: vs)
      | _, _ => None
      end
  end.

(** Run the loop: the number of times the body ran and the final loop
    variables; [None] when the fuel runs out or a node has no value. *)
Fixpoint iterate (fuel : nat) (cond : tensor) (body : list tensor)
    (env : list value) : option (nat * list value) :=
  match fuel with
  | O => None
  | S fuel' =>
      match eval env cond with
      | Some (VBool true) =>
          match step env body with
          | Some env' =>
              match iterate fuel' cond body env' with
              | Some (n, final) => Some (S n, final)
              | None => None
              end
          | None => None
          end
      | Some (VBool false) => Some (O, env)
      | _ => None
      end
  end.

(** The loop a [LoopOutput] node belongs to, run from its inputs. *)
Definition run_loop (fuel : nat) (t : tensor) : option (nat * list value) :=
  match t with
  | LoopOutput _ cond body inputs _ =>
      match step [] inputs with
      | Some env => iterate fuel cond body env
      | None => None
      end
  | _ => None
  end.

End LoopSem.

(** ** Run-time meaning of the input pipeline

    Each [tf.data] stage is an iterator: a state and a [get_next].  The
    numbers drawn by the random ops and the choices of the shuffle buffer
    are parameters. *)

Module Pipeline.

Record iterator (A : Type) : Type := Iterator {
  it_state : Type;
  it_init : it_state;
  it_next : it_state -> option (A * it_state)
}.
Arguments Iterator {A it_state} it_init it_next.
Arguments it_state {A} i.
Arguments it_init {A} i.
Arguments it_next {A} i s.

(** The [k]-th element an iterator yields (counting from 0). *)
Fixpoint get_from {A} (it : iterator A) (s : it_state it) (k : nat)
  : option A :=
  match it_next it s with
  | Some (a, s') =>
      match k with
      | O => Some a
      | S k' => get_from it s' k'
      end
  | None => None
  end.

Definition get {A} (it : iterator A) (k : nat) : option A :=
  get_from it (it_init it) k.

(** An iterator that never ends and only yields elements satisfying [P]. *)
Definition productive {A} (it : iterator A) (P : A -> Prop) : Prop :=
  exists Inv : it_state it -> Prop,
    Inv (it_init it) /\
    forall s, Inv s ->
      exists a s', it_next it s = Some (a, s') /\ P a /\ Inv s'.

Section Stages.
Context {A : Type}.

(** [from_tensor_slices]: the rows, once. *)
Definition slices (rows : list A) : iterator A :=
  Iterator O (fun i =>
    match nth_error rows i with
    | Some a => Some (a, S i)
    | None => None
    end).

(** [repeat()]: restart the upstream iterator whenever it ends. *)
Definition repeat_it (it : iterator A) : iterator A :=
  Iterator (it_init it) (fun s =>
    match it_next it s with
    | Some r => Some r
    | None => it_next it (it_init it)
    end).

(** Top the shuffle buffer up with at most [n] more elements. *)
Fixpoint fill (it : iterator A) (n : nat) (buf : list A) (s : it_state it)
  : list A * it_state it :=
  match n with
  | O => (buf, s)
  | S n' =>
      match it_next it s with
      | Some (a, s') => fill it n' (buf ++ [a]) s'
      | None => (buf, s)
      end
  end.

Fixpoint remove_at (i : nat) (l : list A) : list A :=
  match l, i with
  | [], _ => []
  | _ :: r, O => r
  | a :: r, S i' => a :: remove_at i' r
  end.

(** [shuffle(buffer_size)]: fill the buffer, hand out a random slot. *)
Definition shuffle_it (pick : nat -> nat) (it : iterator A)
    (buffer_size : nat) : iterator A :=
  Iterator (@nil A, it_init it, O) (fun st =>
    let '(buf, s, t) := st in
    let '(buf', s') := fill it (buffer_size - length buf) buf s in
    let i := Nat.modulo (pick t) (length buf') in
    match nth_error buf' i with
    | Some a => Some (a, (remove_at i buf', s', S t))
    | None => None
    end).

(** Take up to [n] elements. *)
Fixpoint pull (it : iterator A) (n : nat) (s : it_state it)
  : list A * it_state it :=
  match n with
  | O => ([], s)
  | S n' =>
      match it_next it s with
      | Some (a, s') =>
          let '(l, s'') := pull it n' s' in (a :: l, s'')
      | None => ([], s)
      end
  end.

(** [batch(n, drop_remainder)]. *)
Definition batch_it (it : iterator A) (n : nat) (drop_remainder : bool)
  : iterator (list A) :=
  Iterator (it_init it) (fun s =>
    let '(l, s') := pull it n s in
    if Nat.eqb (length l) n then Some (l, s')
    else if drop_remainder then None
    else match l with
         | [] => None
         | _ => Some (l, s')
         end).

(** [map(f)] for a function on values. *)
Definition map_it {B} (f : A -> B) (it : iterator A) : iterator B :=
  Iterator (it_init it) (fun s =>
    match it_next it s with
    | Some (a, s') => Some (f a, s')
    | None => None
    end).
End Stages.

Section Denotation.
Variable R : Type.
(** [rng id i j]: entry [(i, j)] of the tensor drawn by random op [id]. *)
Variable rng : nat -> nat -> nat -> R.
(** [pick t]: the random number of the shuffle buffer's [t]-th choice. *)
Variable pick : nat -> nat.

Definition row : Type := list R.

Definition tabulate {B} (n : nat) (f : nat -> B) : list B :=
  List.map f (List.seq 0 n).

(** The value of a two-dimensional random tensor: a list of rows. *)
Definition matrix (t : tensor) : option (list row) :=
  match t with
  | RandomNormal id [r; c] | RandomUniform id [r; c] =>
      Some (tabulate (Z.to_nat r)
              (fun i => tabulate (Z.to_nat c) (fun j => rng id i j)))
  | _ => None
  end.

(** Unbatched stages: elements are pairs of rows. *)
Fixpoint elements (d : dataset) : option (iterator (row * row)) :=
  match d with
  | FromTensorSlices a b =>
      match matrix a, matrix b with
      | Some ra, Some rb => Some (slices (List.combine ra rb))
      | _, _ => None
      end
  | Repeat d' => option_map repeat_it (elements d')
  | Shuffle d' n =>
      if Z.leb n 0 then None
      else option_map (fun it => shuffle_it pick it (Z.to_nat n)) (elements d')
  | Prefetch d' _ => elements d'
  | Batch _ _ _ | Map _ _ _ => None
  end.

(** The component of a batch a mapped output refers to. *)
Definition select {B} (c : component) (b : B * B) : B :=
  match comp_index c with
  | O => fst b
  | _ => snd b
  end.

(** Batched stages: elements are pairs of stacked rows. *)
Fixpoint batches (d : dataset) : option (iterator (list row * list row)) :=
  match d with
  | Batch d' n drop =>
      if Z.leb n 0 then None
      else option_map
             (fun it => map_it (@List.split row row)
                               (batch_it it (Z.to_nat n) drop))
             (elements d')
  | Map d' o1 o2 =>
      option_map (map_it (fun b => (select o1 b, select o2 b))) (batches d')
  | Prefetch d' _ => batches d'
  | Repeat d' => option_map repeat_it (batches d')
  | Shuffle d' n =>
      if Z.leb n 0 then None
      else option_map (fun it => shuffle_it pick it (Z.to_nat n)) (batches d')
  | FromTensorSlices _ _ => None
  end.
End Denotation.

End Pipeline.

(** ** The command line: argparse

    [ArgumentParser.parse_known_args] for a parser that only has long
    optional arguments with [store] and [store_true] actions, which is what
    the script declares.  Errors end in [parser.error], that is
    [SystemExit(2)]. *)

Module Argparse.

Inductive arg_type : Type := TyStr | TyInt.

Inductive arg_action : Type :=
| ActStore (ty : option arg_type)
| ActStoreTrue.

Record argument : Type := Argument {
  option_string : string;
  action : arg_action;
  default : pyval
}.

Definition parser : Type := list argument.

Definition ArgumentParser : parser := [].

Definition add_argument (p : parser) (a : argument) : parser := p ++ [a].

Definition is_dash (c : Ascii.ascii) : bool := Ascii.eqb c "-"%char.

Fixpoint lstrip_dashes (s : string) : string :=
  match s with
  | String c r => if is_dash c then lstrip_dashes r else s
  | EmptyString => s
  end.

Fixpoint dashes_to_underscores (s : string) : string :=
  match s with
  | String c r =>
      String (if is_dash c then "_"%char else c) (dashes_to_underscores r)
  | EmptyString => EmptyString
  end.

(** The attribute an argument is stored under. *)
Definition dest (a : argument) : string :=
  dashes_to_underscores (lstrip_dashes (option_string a)).

(** [s.split(c, 1)] when [c] occurs in [s]. *)
Fixpoint split_at (c : Ascii.ascii) (s : string) : option (string * string) :=
  match s with
  | EmptyString => None
  | String x r =>
      if Ascii.eqb x c then Some (EmptyString, r)
      else match split_at c r with
           | Some (a, b) => Some (String x a, b)
           | None => None
           end
  end.

Definition is_digit (c : Ascii.ascii) : bool :=
  let n := Ascii.nat_of_ascii c in
  (Nat.leb 48 n && Nat.leb n 57)%bool.

Fixpoint all_digits (s : string) : bool :=
  match s with
  | EmptyString => true
  | String c r => (is_digit c && all_digits r)%bool
  end.

Definition nonempty (s : string) : bool :=
  match s with EmptyString => false | _ => true end.

Definition is_space (c : Ascii.ascii) : bool :=
  let n := Ascii.nat_of_ascii c in
  (Nat.eqb n 32 || (Nat.leb 9 n && Nat.leb n 13))%bool.

Fixpoint lstrip (s : string) : string :=
  match s with
  | String c r => if is_space c then lstrip r else s
  | EmptyString => s
  end.

Fixpoint rstrip (s : string) : string :=
  match s with
  | EmptyString => EmptyString
  | String c r =>
      match rstrip r with
      | EmptyString => if is_space c then EmptyString else String c EmptyString
      | r' => String c r'
      end
  end.

(** Decimal digits, with single underscores allowed between digits;
    [after_digit] tells whether the previous character was a digit. *)
Fixpoint digits_value (s : string) (after_digit : bool) (acc : Z)
  : option Z :=
  match s with
  | EmptyString => if after_digit then Some acc else None
  | String c r =>
      if is_digit c then
        digits_value r true (10 * acc + (Z.of_nat (Ascii.nat_of_ascii c) - 48))
      else if (Ascii.eqb c "_"%char && after_digit)%bool then
        digits_value r false acc
      else None
  end.

(** [int(s)] in Python 3: surrounding whitespace, an optional sign, and a
    decimal numeral. *)
Definition int_of_string (s : string) : option Z :=
  match rstrip (lstrip s) with
  | String "-"%char r => option_map Z.opp (digits_value r false 0)
  | String "+"%char r => digits_value r false 0
  | r => digits_value r false 0
  end.

(** argparse's negative-number pattern: a dash, then digits, or digits, a
    dot and at least one digit. *)
Definition looks_negative_number (s : string) : bool :=
  match s with
  | String "-"%char r =>
      ((nonempty r && all_digits r)
       || match split_at "."%char r with
          | Some (a, b) => all_digits a && nonempty b && all_digits b
          | None => false
          end)%bool
  | _ => false
  end.

Fixpoint has_space (s : string) : bool :=
  match s with
  | EmptyString => false
  | String c r => (Ascii.eqb c " "%char || has_space r)%bool
  end.

Definition find_option (p : parser) (name : string) : option argument :=
  List.find (fun a => String.eqb (option_string a) name) p.

(** How [_parse_optional] classifies one command-line token. *)
Inductive token_class : Type :=
| Positional
| Known (a : argument) (explicit_arg : option string)
| Unknown
| Ambiguous.

(** [_get_option_tuples]: the declared options the token abbreviates. *)
Definition option_tuples (p : parser) (t : string)
  : list (argument * option string) :=
  if String.prefix "--" t then
    let '(option_prefix, explicit_arg) :=
      match split_at "="%char t with
      | Some (a, b) => (a, Some b)
      | None => (t, None)
      end in
    List.map (fun a => (a, explicit_arg))
      (List.filter (fun a => String.prefix option_prefix (option_string a)) p)
  else
    List.map (fun a => (a, None))
      (List.filter (fun a => String.prefix t (option_string a)) p).

Definition parse_optional (p : parser) (t : string) : token_class :=
  match t with
  | EmptyString => Positional
  | String c r =>
      if negb (is_dash c) then Positional
      else
        match find_option p t with
        | Some a => Known a None
        | None =>
            if negb (nonempty r) then Positional
            else
              let by_equals :=
                match split_at "="%char t with
                | Some (o, e) =>
                    match find_option p o with
                    | Some a => Some (Known a (Some e))
                    | None => None
                    end
                | None => None
                end in
              match by_equals with
              | Some k => k
              | None =>
                  match option_tuples p t with
                  | _ :: _ :: _ => Ambiguous
                  | [(a, e)] => Known a e
                  | [] =>
                      if looks_negative_number t then Positional
                      else if has_space t then Positional
                      else Unknown
                  end
              end
        end
  end.

Definition is_value (p : parser) (t : string) : bool :=
  match parse_optional p t with
  | Positional => negb (String.eqb t "--")
  | _ => false
  end.

(** [_get_value]: apply the argument's [type] to the string. *)
Definition convert (ty : option arg_type) (v : string) : outcome pyval :=
  match ty with
  | Some TyInt =>
      match int_of_string v with
      | Some n => Ok (PInt n)
      | None => Raise (SystemExit 2)
      end
  | Some TyStr | None => Ok (PStr v)
  end.

Definition store (a : argument) (ty : option arg_type) (v : string)
    (ns : gmap string pyval) : outcome (gmap string pyval) :=
  match convert ty v with
  | Ok x => Ok (<[dest a := x]> ns)
  | Raise e => Raise e
  end.

(** The consuming loop.  Tokens that are no declared option go to the
    extras; after a bare [--] everything does.  A [store] option takes the
    next token as its value only if that token does not look like an
    option. *)
Fixpoint consume (p : parser) (ns : gmap string pyval) (extras : list string)
    (tokens : list string) : outcome (gmap string pyval * list string) :=
  match tokens with
  | [] => Ok (ns, extras)
  | t :: rest =>
      if String.eqb t "--" then Ok (ns, extras ++ tokens)
      else
        match parse_optional p t with
        | Positional | Unknown => consume p ns (extras ++ [t]) rest
        | Ambiguous => Raise (SystemExit 2)
        | Known a explicit_arg =>
            match action a, explicit_arg with
            | ActStoreTrue, Some _ => Raise (SystemExit 2)
            | ActStoreTrue, None =>
                consume p (<[dest a := PBool true]> ns) extras rest
            | ActStore ty, Some v =>
                match store a ty v ns with
                | Ok ns' => consume p ns' extras rest
                | Raise e => Raise e
                end
            | ActStore ty, None =>
                match rest with
                | v :: rest' =>
                    if is_value p v then
                      match store a ty v ns with
                      | Ok ns' => consume p ns' extras rest'
                      | Raise e => Raise e
                      end
                    else Raise (SystemExit 2)
                | [] => Raise (SystemExit 2)
                end
            end
        end
  end.

(** The namespace before any token is read: every default. *)
Definition defaults (p : parser) : gmap string pyval :=
  List.fold_left (fun ns a => <[dest a := default a]> ns) p ∅.

Definition parse_known_args (p : parser) (args : list string)
  : outcome (gmap string pyval * list string) :=
  consume p (defaults p) [] args.

End Argparse.

(** ** The script *)

Module Trainer.
Import TF.

(** [d[key]] on a dictionary and [ns.name] on a namespace. *)
Definition getitem (d : gmap string pyval) (key : string) : prog pyval :=
  match d !! key with
  | Some v => Ret v
  | None => Throw (KeyError key)
  end.

Definition getattr (ns : gmap string pyval) (name : string) : prog pyval :=
  match ns !! name with
  | Some v => Ret v
  | None => Throw (AttributeError name)
  end.

(** [d.get(key, default)] *)
Definition dict_get (d : gmap string pyval) (key : string) (dflt : pyval)
  : pyval :=
  match d !! key with
  | Some v => v
  | None => dflt
  end.

Definition INPUT_DIM : Z := 5.
Definition OUTPUT_DIM : Z := 3.

Definition generator_fn (generator_inputs : tensor) : prog tensor :=
  outputs <- dense generator_inputs OUTPUT_DIM ;;
  Ret outputs.

Definition discriminator_fn (data generator_inputs : tensor) : prog tensor :=
  outputs <- dense data 1 ;;
  Ret outputs.

(** The body of [if mode == tf.estimator.ModeKeys.TRAIN:], returning the
    pair [(loss, train_op)] it assigns.  [tf.group] flattens its inputs, so
    the list of loop outputs is spliced into them. *)
Definition train_branch (params : gmap string pyval) (global_step : tensor)
    (gan_model : gan_model_t) : prog (option tensor * option tensor) :=
  gan_loss <- TF.gan_loss gan_model false ;;
  let loss := generator_loss gan_loss in
  gen_optimizer <- RMSPropOptimizer (FloatLit 5 (-2)) ;;
  dis_optimizer <- RMSPropOptimizer (FloatLit 5 (-2)) ;;
  use_tpu <- getitem params "use_tpu" ;;
  opts <- (if truthy use_tpu
           then gen_optimizer' <- CrossShardOptimizer gen_optimizer ;;
                dis_optimizer' <- CrossShardOptimizer dis_optimizer ;;
                Ret (gen_optimizer', dis_optimizer')
           else Ret (gen_optimizer, dis_optimizer)) ;;
  gan_train_ops <- TF.gan_train_ops gan_model gan_loss (fst opts) (snd opts) ;;
  use_tpu' <- getitem params "use_tpu" ;;
  let while_loop := TF.while_loop (truthy use_tpu') in
  i0 <- constant (SInt 0) ;;
  x0 <- constant (SFloat (FloatLit 0 (-1))) ;;
  let inputs := [i0; x0] in
  let cond := fun i x : tensor => less i 100 in
  let body := fun i x : tensor =>
    i' <- add i 1 ;;
    Ret (i', discriminator_train_op gan_train_ops) in
  dis_train_op <- while_loop cond body inputs ;;
  step <- assign_add global_step 1 ;;
  train_op <- group (dis_train_op ++ [generator_train_op gan_train_ops; step]) ;;
  Ret (Some loss, Some train_op).

Definition model_fn (features labels : tensor) (mode : mode_key)
    (params : gmap string pyval) : prog estimator_spec :=
  global_step <- get_global_step ;;
  let generator_inputs := features in
  let real_data := labels in
  gan_model <- TF.gan_model generator_fn discriminator_fn real_data
                            generator_inputs ;;
  let predictions := generated_data gan_model in
  lt <- (if decide (mode = TRAIN)
         then train_branch params global_step gan_model
         else Ret (None, None)) ;;
  use_tpu <- getitem params "use_tpu" ;;
  if truthy use_tpu
  then make_spec TPUEstimatorSpec mode predictions (fst lt) (snd lt)
  else make_spec EstimatorSpec mode predictions (fst lt) (snd lt).

(** The closure [set_shapes] of [train_input_fn]; [batch_size] is the
    variable it captures. *)
Definition set_shapes (batch_size : pyval) (features labels : component)
  : prog (component * component) :=
  other <- as_shape [batch_size; PNone] ;;
  features_shape <- merge_with (get_shape features) other ;;
  other' <- as_shape [batch_size; PNone] ;;
  labels_shape <- merge_with (get_shape labels) other' ;;
  features' <- set_shape features features_shape ;;
  labels' <- set_shape labels labels_shape ;;
  Ret (features', labels').

Definition train_input_fn (params : gmap string pyval) : prog dataset :=
  let data_size := 100 in
  noise_tensor <- random_normal [data_size; INPUT_DIM] ;;
  real_data_tensor <- random_uniform [data_size; OUTPUT_DIM] ;;
  dataset <- from_tensor_slices noise_tensor real_data_tensor ;;
  dataset <- repeat dataset ;;
  dataset <- shuffle dataset 10 ;;
  let batch_size := dict_get params "train_batch_size" (PInt 16) in
  dataset <- batch dataset batch_size true ;;
  dataset <- map_dataset dataset (set_shapes batch_size) ;;
  dataset <- prefetch dataset AUTOTUNE ;;
  Ret dataset.

(** [vars(args)]: the namespace's own attribute dictionary. *)
Definition vars (args : gmap string pyval) : gmap string pyval := args.

Definition main (args : gmap string pyval) : prog unit :=
  let params := vars args in
  use_tpu <- getattr args "use_tpu" ;;
  estimator <-
    (if truthy use_tpu
     then
       tpu <- getattr args "tpu" ;;
       tpu_cluster_resolver <- TPUClusterResolver tpu ;;
       iterations <- getattr args "save_checkpoints_steps" ;;
       tpu_cfg <- make_TPUConfig 8 iterations ;;
       model_dir <- getattr args "model_dir" ;;
       checkpoints <- getattr args "save_checkpoints_steps" ;;
       config <- make_RunConfig
                   (TPURunConfig tpu_cluster_resolver model_dir tpu_cfg
                                 checkpoints 10) ;;
       train_batch_size <- getattr args "train_batch_size" ;;
       make_Estimator
         (TPUEstimator "model_fn" config params train_batch_size 32 false)
     else
       model_dir <- getattr args "model_dir" ;;
       config <- make_RunConfig (PlainRunConfig model_dir (PInt 10) 10) ;;
       make_Estimator (Estimator "model_fn" config params)) ;;
  train estimator "train_input_fn" 100.

(** *** The [__main__] block *)

(** What the block reads from outside: [sys.argv[1:]], the keys of
    [sys.modules], [os.environ] and the file system. *)
Record world : Type := World {
  argv : list string;
  modules : gset string;
  environ : gmap string string;
  files : gmap string string
}.

Import Argparse.

(** The parser after the five [add_argument] calls. *)
Definition script_parser : parser :=
  let parser := ArgumentParser in
  let parser := add_argument parser
    (Argument "--model-dir" (ActStore (Some TyStr)) (PStr "/tmp/tpu-template")) in
  let parser := add_argument parser
    (Argument "--train-batch-size" (ActStore (Some TyInt)) (PInt 16)) in
  let parser := add_argument parser
    (Argument "--save-checkpoints-steps" (ActStore (Some TyInt)) (PInt 10)) in
  let parser := add_argument parser
    (Argument "--use-tpu" ActStoreTrue (PBool false)) in
  let parser := add_argument parser
    (Argument "--tpu" (ActStore None) PNone) in
  parser.

Definition lift {A} (o : outcome A) : prog A :=
  match o with
  | Ok a => Ret a
  | Raise e => Throw e
  end.

Definition authenticate_user : prog unit :=
  invoke Call_authenticate_user (fun _ => tt).

(** [open(path)] followed by reading it: the file's content. *)
Definition open (fs : gmap string string) (path : string) : prog string :=
  Invoke (Call_open path) (fun _ =>
    match fs !! path with
    | Some content => Ret content
    | None => Throw (IOError path)
    end).

Definition json_load (content : string) : prog string :=
  invoke Call_json_load (fun _ => content).

Definition configure_gcs (session : string) (credentials : string) : prog unit :=
  invoke (Call_configure_gcs session credentials) (fun _ => tt).

(** [with tf.Session(target) as sess: body] *)
Definition with_Session {A} (target : string) (body : string -> prog A)
  : prog A :=
  Invoke (Call_Session target) (fun _ =>
    Finally (body target)
            (invoke (Call_Session_exit target) (fun _ => tt))
            (fun a => Ret a)).

(** The notebook special case: everything between [parse_known_args] and
    the call of [main]. *)
Definition colab_setup (w : world) (args : gmap string pyval)
  : prog (gmap string pyval) :=
  if decide ("google.colab" ∈ modules w) then
    authenticate_user ;;;
    let args := <["model_dir" := PStr "gs://your-gcs-bucket"]> args in
    match environ w !! "COLAB_TPU_ADDR" with
    | Some addr =>
        let tpu_grpc := String.append "grpc://" addr in
        let args := <["tpu" := PStr tpu_grpc]> args in
        let args := <["use_tpu" := PBool true]> args in
        with_Session tpu_grpc (fun sess =>
          content <- open (files w) "/content/adc.json" ;;
          data <- json_load content ;;
          configure_gcs sess data) ;;;
        Ret args
    | None => Ret args
    end
  else Ret args.

(** The arguments [main] is called with. *)
Definition script_args (w : world) : prog (gmap string pyval) :=
  parsed <- lift (parse_known_args script_parser (argv w)) ;;
  let args := fst parsed in
  colab_setup w args.

Definition script (w : world) : prog unit :=
  args <- script_args w ;;
  main args.

End Trainer.

(** ** What the theorems observe *)

Module Observe.
Import Trainer Argparse.

(** The value of [--tpu]: a string, or [None] when the flag is absent. *)
Definition tpu_value (tpu : option string) : pyval :=
  match tpu with Some s => PStr s | None => PNone end.

(** The namespace [parse_known_args] hands to [main]: one attribute per
    declared argument, with the types argparse gives them. *)
Definition Namespace (model_dir : string)
    (train_batch_size save_checkpoints_steps : Z) (use_tpu : bool)
    (tpu : option string) : gmap string pyval :=
  <["tpu" := tpu_value tpu]>
  (<["use_tpu" := PBool use_tpu]>
  (<["save_checkpoints_steps" := PInt save_checkpoints_steps]>
  (<["train_batch_size" := PInt train_batch_size]>
  (<["model_dir" := PStr model_dir]> ∅)))).

(** Projections of a trace. *)
Definition estimators_built (t : list call) : list estimator :=
  List.flat_map (fun c =>
    match c with Call_Estimator e => [e] | _ => [] end) t.

Definition trainings (t : list call) : list (estimator * string * Z) :=
  List.flat_map (fun c =>
    match c with Call_train e f n => [(e, f, n)] | _ => [] end) t.

Definition run_configs (t : list call) : list run_config :=
  List.flat_map (fun c =>
    match c with Call_RunConfig cfg => [cfg] | _ => [] end) t.

Definition tpu_configs (t : list call) : list tpu_config :=
  List.flat_map (fun c =>
    match c with Call_TPUConfig cfg => [cfg] | _ => [] end) t.

Definition is_tpu_estimator (e : estimator) : bool :=
  match e with
  | TPUEstimator _ _ _ _ _ _ => true
  | Estimator _ _ _ => false
  end.

Definition checkpoint_interval (cfg : run_config) : pyval :=
  match cfg with
  | TPURunConfig _ _ _ n _ => n
  | PlainRunConfig _ n _ => n
  end.

(** The calls that read or write files, buckets or checkpoints. *)
Definition touches_storage (c : call) : bool :=
  match c with
  | Call_open _ | Call_configure_gcs _ _ | Call_train _ _ _
  | Call_Estimator _ => true
  | _ => false
  end.

(** The two tensors a pipeline slices. *)
Fixpoint sources (d : dataset) : option (tensor * tensor) :=
  match d with
  | FromTensorSlices a b => Some (a, b)
  | Repeat d' | Shuffle d' _ | Batch d' _ _ | Map d' _ _ | Prefetch d' _ =>
      sources d'
  end.


(** The calls [train_input_fn] makes for an integer batch size. *)
Definition input_calls (batch_size : pyval) : list call :=
  [Call_random_normal [100; 5]; Call_random_uniform [100; 3];
   Call_from_tensor_slices; Call_repeat; Call_shuffle 10;
   Call_batch batch_size true; Call_map; Call_prefetch TF.AUTOTUNE].

(** The GAN model the framework builds for [model_fn], after [h]. *)
Definition built_gan_model (h : list call) (features labels : tensor)
  : gan_model_t :=
  let n := length h in
  let generated := Dense (S (S n)) features 3 in
  GANModel features generated labels
           (Dense (S (S (S (S n)))) labels 1)
           (Dense (S (S (S n))) generated 1).

(** The loop of the train op. *)
Definition built_loop (tpu : bool) (dis_train_op : tensor) (k : nat) : tensor :=
  LoopOutput tpu (Less (LoopVar 0) (Const (SInt 100)))
             [Add (LoopVar 0) (Const (SInt 1)); dis_train_op]
             [Const (SInt 0); Const (SFloat (FloatLit 0 (-1)))] k.


(** The run config and the estimator [main] builds on each path, and the
    calls it makes. *)
Definition built_config (md : string) (cs : Z) (use_tpu : bool)
    (tpu : option string) : run_config :=
  if use_tpu
  then TPURunConfig (tpu_value tpu) (PStr md) (TPUConfig 8 (PInt cs))
                    (PInt cs) 10
  else PlainRunConfig (PStr md) (PInt 10) 10.

Definition built_estimator (md : string) (bs cs : Z) (use_tpu : bool)
    (tpu : option string) : estimator :=
  let params := Namespace md bs cs use_tpu tpu in
  if use_tpu
  then TPUEstimator "model_fn" (built_config md cs true tpu) params
                    (PInt bs) 32 false
  else Estimator "model_fn" (built_config md cs false tpu) params.

Definition main_calls (md : string) (bs cs : Z) (use_tpu : bool)
    (tpu : option string) : list call :=
  (if use_tpu
   then [Call_TPUClusterResolver (tpu_value tpu);
         Call_TPUConfig (TPUConfig 8 (PInt cs))]
   else [])
  ++ [Call_RunConfig (built_config md cs use_tpu tpu);
      Call_Estimator (built_estimator md bs cs use_tpu tpu);
      Call_train (built_estimator md bs cs use_tpu tpu) "train_input_fn" 100].

(** The dataset [train_input_fn] returns for the batch size [n]. *)
Definition built_dataset (h : list call) (n : Z) : dataset :=
  Prefetch
    (Map (Batch (Shuffle (Repeat (FromTensorSlices
                                    (RandomNormal (length h) [100; 5])
                                    (RandomUniform (S (length h)) [100; 3])))
                         10)
                n true)
         (Component 0 [Some n; Some 5]) (Component 1 [Some n; Some 3]))
    TF.AUTOTUNE.


Definition is_draw (c : call) : bool :=
  match c with
  | Call_random_normal _ | Call_random_uniform _ => true
  | _ => false
  end.

(** Two invocations of [train_input_fn], one after the other. *)
Definition two_invocations (params params' : gmap string pyval)
  : prog (dataset * dataset) :=
  d1 <- train_input_fn params ;;
  d2 <- train_input_fn params' ;;
  Ret (d1, d2).

Definition is_namespace (ns : gmap string pyval) : Prop :=
  exists md bs cs ut tp, ns = Namespace md bs cs ut tp.



(** A program that does retry, for contrast: call again on failure. *)
Definition retrying (x : tensor) : prog tensor :=
  TryCatch (TF.dense x 3) (fun _ => TF.dense x 3) (fun y => Ret y).

(** An oracle that fails the very first call only. *)
Definition fails_once : oracle :=
  fun h _ => match h with [] => Some (FrameworkError "unavailable") | _ => None end.

(** An oracle that fails every [gan_loss] call. *)
Definition fails_gan_loss : oracle :=
  fun _ c =>
    match c with
    | Call_gan_loss _ => Some (ValueError "shape mismatch")
    | _ => None
    end.

(** An oracle that fails every [configure_gcs] call. *)
Definition fails_configure_gcs : oracle :=
  fun _ c =>
    match c with
    | Call_configure_gcs _ _ => Some (FrameworkError "permission denied")
    | _ => None
    end.

(** Concrete inputs used to exercise the theorems. *)
Definition example_features : tensor := Placeholder "features" [None; Some 5].
Definition example_labels : tensor := Placeholder "labels" [None; Some 3].

Definition example_world : world :=
  World ["--train-batch-size"; "32"] {["google.colab"]}
        {["COLAB_TPU_ADDR" := "10.0.0.2:8470"]}
        {["/content/adc.json" := "{}"]}.

End Observe.

(** ** Further observations *)

Module Further.
Import Trainer Argparse Observe.



(** The calls that set up a TPU in [main]. *)
Definition is_tpu_setup (c : call) : bool :=
  match c with
  | Call_TPUClusterResolver _ | Call_TPUConfig _ => true
  | _ => false
  end.

(** The calls of the training branch of [model_fn]. *)
Definition builds_training (c : call) : bool :=
  match c with
  | Call_gan_loss _ | Call_RMSPropOptimizer _ | Call_CrossShardOptimizer _
  | Call_gan_train_ops _ _ | Call_constant _ | Call_while_loop _
  | Call_less | Call_add | Call_assign_add _ | Call_group => true
  | _ => false
  end.

(** Row [i] of the noise drawn by random op [id], and of the real data. *)
Definition noise_row {R} (rng : nat -> nat -> nat -> R) (id i : nat)
  : Pipeline.row R :=
  Pipeline.tabulate 5 (fun j => rng id i j).

Definition real_row {R} (rng : nat -> nat -> nat -> R) (id i : nat)
  : Pipeline.row R :=
  Pipeline.tabulate 3 (fun j => rng id i j).

(** A feature row and a label row that were drawn at the same index by
    the two random ops of an invocation started after [h]. *)
Definition aligned {R} (rng : nat -> nat -> nat -> R) (h : list call)
    (e : Pipeline.row R * Pipeline.row R) : Prop :=
  exists i, (i < 100)%nat /\
            fst e = noise_row rng (length h) i /\
            snd e = real_row rng (S (length h)) i.



(** The calls of the CPU path of [main] for an arbitrary namespace. *)
Definition cpu_calls (args : gmap string pyval) (model_dir : pyval)
  : list call :=
  let cfg := PlainRunConfig model_dir (PInt 10) 10 in
  [Call_RunConfig cfg; Call_Estimator (Estimator "model_fn" cfg args);
   Call_train (Estimator "model_fn" cfg args) "train_input_fn" 100].

(** A world in the notebook with a TPU runtime but no credentials file. *)
Definition world_without_credentials : world :=
  World [] {["google.colab"]} {["COLAB_TPU_ADDR" := "10.0.0.2:8470"]} ∅.

(** A world in the notebook without a TPU runtime. *)
Definition world_without_tpu : world :=
  World ["--model-dir"; "/tmp/mine"; "--tpu"; "host"] {["google.colab"]} ∅ ∅.

(** An oracle that fails every [json.load]. *)
Definition fails_json_load : oracle :=
  fun _ c =>
    match c with
    | Call_json_load => Some (ValueError "No JSON object could be decoded")
    | _ => None
    end.

End Further.

(** * Facts about programs *)

Module EffectsFacts.

Lemma rev_append_app {A} (a b h : list A) :
  rev_append (a ++ b) h = rev_append b (rev_append a h).
Proof. revert h. induction a as [|x a IH]; intros h; simpl; auto. Qed.

(** Running a bind: run the first part, then the second after it. *)
Lemma run_bind raises {A B} (p : prog A) (f : A -> prog B) h :
  run raises (bind p f) h =
  match run raises p h with
  | (Ok a, t) =>
      let '(r, t') := run raises (f a) (rev_append t h) in (r, t ++ t')
  | (Raise e, t) => (Raise e, t)
  end.
Proof.
  revert B f h.
  induction p as [A a|A e|A c k IH|A X body IHb handler IHh k IHk
                  |A X body IHb cleanup IHc k IHk]; intros B f h; simpl.
  - destruct (run raises (f a) h); reflexivity.
  - reflexivity.
  - destruct (raises h c); [reflexivity|].
    rewrite IH. destruct (run raises (k (length h)) (c :: h)) as [[a|e] t]; simpl.
    + destruct (run raises (f a) (rev_append t (c :: h))); reflexivity.
    + reflexivity.
  - destruct (run raises body h) as [[b|e] t].
    + rewrite IHk. destruct (run raises (k b) (rev_append t h)) as [[a|e] t']; simpl.
      * rewrite rev_append_app.
        destruct (run raises (f a) _); rewrite <- app_assoc; reflexivity.
      * reflexivity.
    + destruct (run raises (handler e) (rev_append t h)) as [[b|e'] t1]; [|reflexivity].
      rewrite IHk.
      destruct (run raises (k b) _) as [[a|e2] t']; simpl; [|reflexivity].
      rewrite !rev_append_app.
      destruct (run raises (f a) _); rewrite <- !app_assoc; reflexivity.
  - destruct (run raises body h) as [[b|e] t].
    + destruct (run raises cleanup (rev_append t h)) as [[u|e'] t1]; [|reflexivity].
      rewrite IHk.
      destruct (run raises (k b) _) as [[a|e2] t']; simpl; [|reflexivity].
      rewrite !rev_append_app.
      destruct (run raises (f a) _); rewrite <- !app_assoc; reflexivity.
    + destruct (run raises cleanup (rev_append t h)) as [[u|e'] t1]; reflexivity.
Qed.

Lemma no_throw_straight_line {A} (p : prog A) : no_throw p -> straight_line p.
Proof. induction p; simpl; intros Hp; auto; contradiction. Qed.

Lemma straight_line_handler_free {A} (p : prog A) :
  straight_line p -> handler_free p.
Proof. induction p; simpl; intros Hp; auto; contradiction. Qed.

Lemma straight_line_bind {A B} (p : prog A) (f : A -> prog B) :
  straight_line p -> (forall a, straight_line (f a)) -> straight_line (bind p f).
Proof. induction p; simpl; intros Hp Hf; auto; contradiction. Qed.

Lemma handler_free_bind {A B} (p : prog A) (f : A -> prog B) :
  handler_free p -> (forall a, handler_free (f a)) -> handler_free (bind p f).
Proof.
  induction p; simpl; intros Hp Hf; auto; try contradiction.
  destruct Hp as (Hb & Hc & Hk). repeat split; auto.
Qed.


(** A failing call splits off the front of a trace that starts with it. *)
Lemma split_cons {A} (c0 : A) t' before c after :
  c0 :: t' = before ++ c :: after ->
  (before = [] /\ c = c0 /\ after = t') \/
  (exists b', before = c0 :: b' /\ t' = b' ++ c :: after).
Proof.
  destruct before as [|x b']; simpl; intros E; inversion E; subst; eauto.
Qed.

Lemma straight_line_fail_fast {A} (p : prog A) : straight_line p -> fail_fast p.
Proof.
  unfold fail_fast, fails_at.
  induction p as [A a|A e0|A c0 k IH| |]; simpl;
    intros Hs raises h r before c after e Hrun Hf; try contradiction.
  - injection Hrun as _ Ht. destruct before; discriminate.
  - injection Hrun as _ Ht. destruct before; discriminate.
  - destruct (raises h c0) as [e1|] eqn:Hc0.
    + injection Hrun as Hr Ht. subst r.
      destruct (split_cons _ _ _ _ _ Ht) as [(-> & -> & ->)|(b' & -> & Hb)].
      * simpl in Hf. split; [reflexivity|congruence].
      * destruct b'; discriminate.
    + destruct (run raises (k (length h)) (c0 :: h)) as [r' t'] eqn:Hk.
      injection Hrun as Hr Ht. subst r'.
      destruct (split_cons _ _ _ _ _ Ht) as [(-> & -> & ->)|(b' & -> & ->)].
      * simpl in Hf. congruence.
      * eapply IH; eauto.
Qed.

(** A program that only makes calls ends badly only at a failing call. *)
Lemma no_throw_raise raises {A} (p : prog A) h e t :
  no_throw p -> run raises p h = (Raise e, t) ->
  exists before c, t = before ++ [c] /\ fails_at raises h before c e.
Proof.
  unfold fails_at. revert h t.
  induction p as [A a|A e0|A c0 k IH| |]; simpl; intros h t Hn Hrun;
    try contradiction.
  - discriminate.
  - destruct (raises h c0) as [e1|] eqn:Hc0.
    + injection Hrun as -> <-. exists [], c0. split; [reflexivity|exact Hc0].
    + destruct (run raises (k (length h)) (c0 :: h)) as [r' t'] eqn:Hk.
      injection Hrun as -> <-.
      destruct (IH _ _ _ (Hn _) Hk) as (b & c & -> & Hf).
      exists (c0 :: b), c. split; [reflexivity|exact Hf].
Qed.

(** Where a call of [ta ++ tb] written as [before ++ c :: after] lies. *)
Lemma split_app {A} (ta tb before : list A) c after :
  ta ++ tb = before ++ c :: after ->
  (exists a', ta = before ++ c :: a' /\ after = a' ++ tb) \/
  (exists b', before = ta ++ b' /\ tb = b' ++ c :: after).
Proof.
  intros E. apply app_eq_app in E. destruct E as [l [[-> E]|[-> E]]].
  - destruct l as [|x l]; simpl in E.
    + right. exists []. rewrite !app_nil_r. auto.
    + injection E as <- ->. left. exists l. auto.
  - right. exists l. auto.
Qed.

Lemma last_failure_app raises h t1 t2 :
  last_failure raises h (t1 ++ t2) =
  match last_failure raises (rev_append t1 h) t2 with
  | Some e => Some e
  | None => last_failure raises h t1
  end.
Proof.
  revert h. induction t1 as [|c t1 IH]; intros h; simpl.
  - destruct (last_failure raises h t2); reflexivity.
  - rewrite IH. destruct (last_failure raises (rev_append t1 (c :: h)) t2);
      reflexivity.
Qed.

Lemma last_failure_at_end raises h before c e :
  fails_at raises h before c e ->
  last_failure raises h (before ++ [c]) = Some e.
Proof.
  unfold fails_at. intros Hf. rewrite last_failure_app. simpl.
  rewrite Hf. reflexivity.
Qed.

Lemma handler_free_no_recovery {A} (p : prog A) :
  handler_free p -> no_recovery p.
Proof.
  unfold no_recovery.
  induction p as [A a|A e0|A c0 k IH| |A X body IHb cleanup IHc k IHk]; simpl;
    intros Hs raises h r t e Hrun Hf; try contradiction.
  - injection Hrun as _ <-. discriminate.
  - injection Hrun as _ <-. discriminate.
  - destruct (raises h c0) as [e1|] eqn:Hc0.
    + injection Hrun as <- <-. simpl in Hf. rewrite Hc0 in Hf. congruence.
    + destruct (run raises (k (length h)) (c0 :: h)) as [r' t'] eqn:Hk.
      injection Hrun as <- <-. simpl in Hf.
      destruct (last_failure raises (c0 :: h) t') as [e1|] eqn:Hl.
      * injection Hf as ->. eapply IH; eauto.
      * congruence.
  - destruct Hs as (Hb & Hc & Hk).
    pose proof (straight_line_handler_free _ (no_throw_straight_line _ Hc)) as Hc'.
    destruct (run raises body h) as [[b|eb] tb] eqn:Eb.
    + destruct (run raises cleanup (rev_append tb h)) as [[u|ec] tc] eqn:Ec.
      * destruct (run raises (k b) _) as [r' tk] eqn:Ek.
        injection Hrun as <- <-.
        rewrite !last_failure_app in Hf.
        destruct (last_failure raises _ tk) as [e1|] eqn:L1.
        { injection Hf as ->. eapply (IHk b (Hk b)); eauto. }
        destruct (last_failure raises _ tc) as [e2|] eqn:L2.
        { pose proof (IHc Hc' _ _ _ _ _ Ec L2). discriminate. }
        pose proof (IHb Hb _ _ _ _ _ Eb Hf). discriminate.
      * injection Hrun as <- <-.
        rewrite last_failure_app in Hf.
        destruct (last_failure raises _ tc) as [e2|] eqn:L2.
        { injection Hf as ->. pose proof (IHc Hc' _ _ _ _ _ Ec L2). congruence. }
        pose proof (IHb Hb _ _ _ _ _ Eb Hf). discriminate.
    + destruct (run raises cleanup (rev_append tb h)) as [[u|ec] tc] eqn:Ec.
      * injection Hrun as <- <-.
        rewrite last_failure_app in Hf.
        destruct (last_failure raises _ tc) as [e2|] eqn:L2.
        { pose proof (IHc Hc' _ _ _ _ _ Ec L2). discriminate. }
        pose proof (IHb Hb _ _ _ _ _ Eb Hf). congruence.
      * injection Hrun as <- <-.
        rewrite last_failure_app in Hf.
        destruct (no_throw_raise raises _ _ _ _ Hc Ec) as (bb & cc & -> & Hcc).
        rewrite (last_failure_at_end _ _ _ _ _ Hcc) in Hf.
        injection Hf as ->. reflexivity.
Qed.

(** On a run that ends well no call failed, so the oracle was not needed. *)
Lemma run_ok_no_failure raises {A} (p : prog A) h a t :
  handler_free p -> run raises p h = (Ok a, t) ->
  run no_failure p h = (Ok a, t).
Proof.
  revert h a t.
  induction p as [A a0|A e0|A c0 k IH| |A X body IHb cleanup IHc k IHk]; simpl;
    intros h a t Hs Hrun; try contradiction; auto.
  - destruct (raises h c0); [discriminate|].
    destruct (run raises (k (length h)) (c0 :: h)) as [r' t'] eqn:Hk.
    injection Hrun as -> <-. rewrite (IH _ _ _ _ (Hs _) Hk). reflexivity.
  - destruct Hs as (Hb & Hc & Hk).
    destruct (run raises body h) as [[b|eb] tb] eqn:Eb.
    + rewrite (IHb _ _ _ Hb Eb).
      destruct (run raises cleanup (rev_append tb h)) as [[u|ec] tc] eqn:Ec.
      * rewrite (IHc _ _ _ (straight_line_handler_free _ (no_throw_straight_line _ Hc)) Ec).
        destruct (run raises (k b) _) as [r' tk] eqn:Ek.
        injection Hrun as -> <-. rewrite (IHk _ _ _ _ (Hk b) Ek). reflexivity.
      * discriminate.
    + destruct (run raises cleanup (rev_append tb h)) as [[u|ec] tc]; discriminate.
Qed.


(** Whatever fails, a program without handlers has made a prefix of the
    calls it makes when nothing fails. *)
Lemma straight_line_trace_prefix raises {A} (p : prog A) h r t :
  straight_line p -> run raises p h = (r, t) ->
  exists rest, snd (run no_failure p h) = t ++ rest.
Proof.
  revert h r t.
  induction p as [A a|A e0|A c0 k IH| |]; simpl; intros h r t Hs Hrun;
    try contradiction.
  - injection Hrun as _ <-. exists []. reflexivity.
  - injection Hrun as _ <-. exists []. reflexivity.
  - destruct (run no_failure (k (length h)) (c0 :: h)) as [r0 t0] eqn:E0.
    destruct (raises h c0).
    + injection Hrun as _ <-. exists t0. reflexivity.
    + destruct (run raises (k (length h)) (c0 :: h)) as [r' t'] eqn:Hk.
      injection Hrun as _ <-.
      destruct (IH _ _ _ _ (Hs _) Hk) as [rest Hrest].
      rewrite E0 in Hrest. simpl in Hrest. subst t0.
      exists rest. reflexivity.
Qed.

End EffectsFacts.

Module SyntaxFacts.
Import EffectsFacts Trainer TF.

Ltac shape_step :=
  first
    [ apply straight_line_bind
    | apply handler_free_bind
    | exact I
    | intro
    | progress cbn
    | match goal with
      | |- context [match ?x with _ => _ end] => destruct x
      end
    | split ].

Ltac shape := repeat shape_step.

Lemma generator_fn_straight x : straight_line (generator_fn x).
Proof. unfold generator_fn. shape. Qed.

Lemma discriminator_fn_straight d g : straight_line (discriminator_fn d g).
Proof. unfold discriminator_fn. shape. Qed.

Lemma gan_model_straight r g :
  straight_line (gan_model generator_fn discriminator_fn r g).
Proof. unfold gan_model, generator_fn, discriminator_fn. shape. Qed.

Lemma train_branch_straight params gs gm :
  straight_line (train_branch params gs gm).
Proof. unfold train_branch, getitem. shape. Qed.

Lemma model_fn_straight f l m params : straight_line (model_fn f l m params).
Proof.
  unfold model_fn.
  apply straight_line_bind; [shape|intros gs].
  apply straight_line_bind; [apply gan_model_straight|intros gm].
  apply straight_line_bind.
  { destruct (decide (m = TRAIN)); [apply train_branch_straight|exact I]. }
  intros lt. unfold getitem. shape.
Qed.

Lemma as_shape_straight l : straight_line (as_shape l).
Proof. induction l as [|v l IH]; [exact I|]. cbn [as_shape]. 
  apply straight_line_bind; [destruct v; exact I|intros d].
  apply straight_line_bind; [exact IH|intros s; exact I].
Qed.

Lemma merge_with_straight a b : straight_line (merge_with a b).
Proof. unfold merge_with. destruct (merge_shapes a b); exact I. Qed.

Lemma set_shapes_straight bs f l : straight_line (set_shapes bs f l).
Proof.
  unfold set_shapes, set_shape.
  repeat first [ apply as_shape_straight | apply merge_with_straight
               | apply straight_line_bind | intro | exact I ].
Qed.

Lemma train_input_fn_straight params : straight_line (train_input_fn params).
Proof.
  unfold train_input_fn.
  repeat first [ apply straight_line_bind | intro ]; try (cbn; intros; exact I).
  - destruct (dict_get _ _ _); exact I.
  - destruct (output_shapes _) as [[sa sb]|]; [|exact I].
    apply straight_line_bind; [apply set_shapes_straight|intros; exact I].
Qed.

Lemma main_straight args : straight_line (main args).
Proof. unfold main, getattr, vars. shape. Qed.

Lemma colab_setup_handler_free w args : handler_free (colab_setup w args).
Proof.
  unfold colab_setup. destruct (decide _); [|exact I].
  destruct (environ w !! "COLAB_TPU_ADDR"); cbn; intros; [|exact I].
  repeat split; intros; try exact I.
  destruct (files w !! _); cbn; intros; exact I.
Qed.

Lemma script_args_handler_free w : handler_free (script_args w).
Proof.
  unfold script_args. apply handler_free_bind.
  - destruct (Argparse.parse_known_args _ _); exact I.
  - intros parsed. apply colab_setup_handler_free.
Qed.

Lemma script_handler_free w : handler_free (script w).
Proof.
  unfold script. apply handler_free_bind.
  - apply script_args_handler_free.
  - intros args. apply straight_line_handler_free, main_straight.
Qed.

End SyntaxFacts.

(** * The network functions and the model function *)

Module ModelFacts.
Import EffectsFacts SyntaxFacts Trainer TF Observe LoopSem.

(** C6: generator_fn is exactly one dense layer with OUTPUT_DIM = 3 units on
    its inputs, and discriminator_fn is exactly one dense layer with 1 unit
    on its data argument, whatever its generator_inputs argument is. *)
Theorem networks_are_one_dense_layer :
  OUTPUT_DIM = 3 /\
  (forall raises h x,
     run raises (generator_fn x) h =
     match raises h (Call_dense 3) with
     | Some e => (Raise e, [Call_dense 3])
     | None => (Ok (Dense (length h) x 3), [Call_dense 3])
     end) /\
  (forall raises h data generator_inputs,
     run raises (discriminator_fn data generator_inputs) h =
     match raises h (Call_dense 1) with
     | Some e => (Raise e, [Call_dense 1])
     | None => (Ok (Dense (length h) data 1), [Call_dense 1])
     end) /\
  (forall data g g', discriminator_fn data g = discriminator_fn data g').
Proof.
  split; [reflexivity|]. split; [|split].
  - intros raises h x. unfold generator_fn, OUTPUT_DIM. simpl.
    destruct (raises h (Call_dense 3)); reflexivity.
  - intros raises h d g. unfold discriminator_fn. simpl.
    destruct (raises h (Call_dense 1)); reflexivity.
  - reflexivity.
Qed.

Lemma built_gan_model_run h features labels :
  run no_failure (gan_model generator_fn discriminator_fn labels features)
      (Call_get_global_step :: h) =
  (Ok (built_gan_model h features labels),
   [Call_gan_model; Call_dense 3; Call_dense 1; Call_dense 1]).
Proof. reflexivity. Qed.



Lemma model_fn_other_run h features labels mode params v :
  mode <> TRAIN ->
  params !! "use_tpu" = Some v ->
  let cls := if truthy v then TPUEstimatorSpec else EstimatorSpec in
  run no_failure (model_fn features labels mode params) h =
  (Ok (Spec cls mode (generated_data (built_gan_model h features labels))
            None None),
   [Call_get_global_step; Call_gan_model; Call_dense 3; Call_dense 1;
    Call_dense 1; Call_spec cls]).
Proof.
  intros Hm Hv. unfold model_fn, getitem. rewrite Hv.
  destruct (decide (mode = TRAIN)) as [E|_]; [contradiction|].
  cbn. destruct (truthy v); reflexivity.
Qed.

(** Without the key the dictionary lookup raises and no spec is built. *)
Lemma model_fn_missing_key h features labels mode params :
  params !! "use_tpu" = None ->
  fst (run no_failure (model_fn features labels mode params) h)
  = Raise (KeyError "use_tpu").
Proof.
  intros Hv. unfold model_fn, train_branch, getitem. rewrite Hv.
  destruct (decide (mode = TRAIN)); reflexivity.
Qed.

Lemma model_fn_returns_key raises h features labels mode params s t :
  run raises (model_fn features labels mode params) h = (Ok s, t) ->
  exists v, params !! "use_tpu" = Some v.
Proof.
  intros Hrun.
  apply run_ok_no_failure in Hrun;
    [|apply straight_line_handler_free, model_fn_straight].
  destruct (params !! "use_tpu") as [v|] eqn:Hv; [eauto|].
  pose proof (model_fn_missing_key h features labels mode params Hv) as Hk.
  rewrite Hrun in Hk. discriminate.
Qed.

(** More fuel does not change the result of a loop that ends. *)
Lemma iterate_more_fuel fuel extra cond body env r :
  iterate fuel cond body env = Some r ->
  iterate (fuel + extra) cond body env = Some r.
Proof.
  revert env r. induction fuel as [|fuel IH]; intros env r; simpl; [discriminate|].
  destruct (eval env cond) as [[| |[|]|]|]; auto.
  destruct (step env body) as [env'|]; auto.
  destruct (iterate fuel cond body env') as [[n final]|] eqn:E; [|discriminate].
  rewrite (IH _ _ E). auto.
Qed.


(** With 100 units of fuel or fewer the loop has not finished. *)
Lemma built_loop_needs_100 tpu opt l k fuel :
  (fuel <= 100)%nat ->
  run_loop fuel (built_loop tpu (TrainOp opt l) k) = None.
Proof.
  intros Hf.
  destruct (run_loop fuel (built_loop tpu (TrainOp opt l) k)) as [r|] eqn:E;
    [|reflexivity].
  unfold run_loop, built_loop in E. cbn [step eval] in E.
  apply (iterate_more_fuel _ (100 - fuel)) in E.
  replace (fuel + (100 - fuel))%nat with 100%nat in E by lia.
  vm_compute in E. discriminate.
Qed.




End ModelFacts.

(** * The main routine *)

Module MainFacts.
Import EffectsFacts SyntaxFacts Trainer TF Observe.

Lemma main_run h md bs cs use_tpu tpu :
  run no_failure (main (Namespace md bs cs use_tpu tpu)) h =
  (Ok tt, main_calls md bs cs use_tpu tpu).
Proof. destruct use_tpu; vm_compute; reflexivity. Qed.


Lemma main_returns raises h md bs cs use_tpu tpu r t :
  run raises (main (Namespace md bs cs use_tpu tpu)) h = (Ok r, t) ->
  t = main_calls md bs cs use_tpu tpu.
Proof.
  intros Hrun.
  apply run_ok_no_failure in Hrun;
    [|apply straight_line_handler_free, main_straight].
  rewrite main_run in Hrun. congruence.
Qed.

Lemma flat_map_prefix_length {A B} (f : A -> list B) t rest :
  (length (List.flat_map f t) <= length (List.flat_map f (t ++ rest)))%nat.
Proof. rewrite flat_map_app, length_app. lia. Qed.

(** C2: every invocation of main that returns has constructed exactly one
    estimator, the TPU one when use_tpu is set and the plain one otherwise,
    and has called its train method exactly once, with train_input_fn and
    100 steps; no invocation constructs or trains more than once, and main
    returns when no framework call fails. *)
Theorem main_trains_one_estimator :
  forall raises h md bs cs use_tpu tpu,
    (forall r t,
       run raises (main (Namespace md bs cs use_tpu tpu)) h = (r, t) ->
       (length (estimators_built t) <= 1)%nat /\
       (length (trainings t) <= 1)%nat /\
       (r = Ok tt ->
        exists est,
          estimators_built t = [est] /\
          is_tpu_estimator est = use_tpu /\
          trainings t = [(est, "train_input_fn", 100)])) /\
    fst (run no_failure (main (Namespace md bs cs use_tpu tpu)) h) = Ok tt.
Proof.
  intros raises h md bs cs use_tpu tpu. split.
  - intros r t Hrun. split; [|split].
    + destruct (straight_line_trace_prefix raises _ h r t
                  (main_straight _) Hrun) as [rest Hrest].
      rewrite main_run in Hrest. simpl in Hrest.
      pose proof (flat_map_prefix_length
                    (fun c => match c with Call_Estimator e => [e] | _ => [] end)
                    t rest) as Hle.
      fold (estimators_built t) in Hle. fold (estimators_built (t ++ rest)) in Hle.
      rewrite <- Hrest in Hle. destruct use_tpu; exact Hle.
    + destruct (straight_line_trace_prefix raises _ h r t
                  (main_straight _) Hrun) as [rest Hrest].
      rewrite main_run in Hrest. simpl in Hrest.
      pose proof (flat_map_prefix_length
                    (fun c => match c with
                              | Call_train e f n => [(e, f, n)]
                              | _ => []
                              end)
                    t rest) as Hle.
      fold (trainings t) in Hle. fold (trainings (t ++ rest)) in Hle.
      rewrite <- Hrest in Hle. destruct use_tpu; exact Hle.
    + intros ->. apply main_returns in Hrun. subst t.
      exists (built_estimator md bs cs use_tpu tpu).
      destruct use_tpu; repeat split; reflexivity.
  - rewrite main_run. reflexivity.
Qed.

(** C3: on the TPU path main passes args.save_checkpoints_steps both as
    iterations_per_loop of the TPU config and as save_checkpoints_steps of
    the run config; on the other path there is no TPU config and the run
    config's checkpoint interval is the constant 10, whatever the flag's
    value. *)
Theorem checkpoint_flag_only_on_tpu_path :
  forall raises h md bs cs tpu,
    (forall t,
       run raises (main (Namespace md bs cs true tpu)) h = (Ok tt, t) ->
       tpu_configs t = [TPUConfig 8 (PInt cs)] /\
       run_configs t =
         [TPURunConfig (tpu_value tpu) (PStr md) (TPUConfig 8 (PInt cs))
                       (PInt cs) 10] /\
       List.map checkpoint_interval (run_configs t) = [PInt cs]) /\
    (forall t,
       run raises (main (Namespace md bs cs false tpu)) h = (Ok tt, t) ->
       tpu_configs t = [] /\
       run_configs t = [PlainRunConfig (PStr md) (PInt 10) 10] /\
       List.map checkpoint_interval (run_configs t) = [PInt 10]) /\
    (forall cs' t t',
       run raises (main (Namespace md bs cs false tpu)) h = (Ok tt, t) ->
       run raises (main (Namespace md bs cs' false tpu)) h = (Ok tt, t') ->
       run_configs t' = run_configs t).
Proof.
  intros raises h md bs cs tpu. split; [|split].
  - intros t Hrun. apply main_returns in Hrun. subst t.
    repeat split; reflexivity.
  - intros t Hrun. apply main_returns in Hrun. subst t.
    repeat split; reflexivity.
  - intros cs' t t' Hrun Hrun'.
    apply main_returns in Hrun. apply main_returns in Hrun'. subst t t'.
    reflexivity.
Qed.

End MainFacts.

(** * The input pipeline *)

Module PipelineFacts.
Import Pipeline.

Lemma productive_get {A} (it : iterator A) P :
  productive it P -> forall k, exists a, get it k = Some a /\ P a.
Proof.
  intros (Inv & Hinit & Hstep) k. unfold get.
  generalize (it_init it) Hinit. induction k as [|k IH]; intros s Hs;
    destruct (Hstep s Hs) as (a & s' & Hn & Ha & Hs'); simpl; rewrite Hn.
  - eauto.
  - apply IH. exact Hs'.
Qed.

Lemma repeat_slices_productive {A} (rows : list A) P :
  rows <> [] -> Forall P rows ->
  productive (repeat_it (slices rows)) P.
Proof.
  intros Hne Hall. exists (fun _ => True). split; [exact I|].
  intros i _. simpl.
  assert (Hin : forall j a, nth_error rows j = Some a -> P a).
  { intros j a Hj. rewrite Forall_forall in Hall. apply Hall.
    apply list_elem_of_In. eapply nth_error_In; eauto. }
  destruct (nth_error rows i) as [a|] eqn:Hi.
  - exists a, (S i). eauto.
  - destruct rows as [|a rows]; [contradiction|]. simpl.
    exists a, 1%nat. split; [reflexivity|]. split; [|exact I].
    apply (Hin O). reflexivity.
Qed.

Lemma fill_productive {A} (it : iterator A) P Inv :
  (forall s, Inv s -> exists a s', it_next it s = Some (a, s') /\ P a /\ Inv s') ->
  forall n buf s, Inv s -> Forall P buf ->
    exists buf' s', fill it n buf s = (buf', s') /\
      length buf' = (length buf + n)%nat /\ Forall P buf' /\ Inv s'.
Proof.
  intros Hstep. induction n as [|n IH]; intros buf s Hs Hbuf; simpl.
  - exists buf, s. repeat split; auto.
  - destruct (Hstep s Hs) as (a & s1 & Hn & Ha & Hs1). rewrite Hn.
    destruct (IH (buf ++ [a]) s1 Hs1) as (buf' & s' & Hf & Hl & Hall & Hs').
    { apply Forall_app. split; [exact Hbuf|]. constructor; [exact Ha|constructor]. }
    exists buf', s'. repeat split; auto.
    rewrite Hl, length_app. simpl. lia.
Qed.

Lemma remove_at_Forall {A} (P : A -> Prop) i l :
  Forall P l -> Forall P (remove_at i l).
Proof.
  revert i. induction l as [|a l IH]; intros i Hl; simpl.
  - destruct i; constructor.
  - inversion Hl; subst. destruct i; [assumption|]. constructor; auto.
Qed.

Lemma shuffle_productive {A} pick (it : iterator A) P n :
  (0 < n)%nat -> productive it P -> productive (shuffle_it pick it n) P.
Proof.
  intros Hn (Inv & Hinit & Hstep).
  exists (fun st => Forall P (fst (fst st)) /\ Inv (snd (fst st))).
  split; [split; [constructor|exact Hinit]|].
  intros [[buf s] t] [Hbuf Hs]. simpl in Hbuf, Hs. simpl.
  destruct (fill_productive it P Inv Hstep (n - length buf) buf s Hs Hbuf)
    as (buf' & s' & Hf & Hl & Hall & Hs').
  rewrite Hf.
  assert (Hpos : (0 < length buf')%nat) by lia.
  assert (Hlt : (Nat.modulo (pick t) (length buf') < length buf')%nat).
  { apply Nat.mod_upper_bound. lia. }
  destruct (nth_error buf' (Nat.modulo (pick t) (length buf'))) as [a|] eqn:Ha.
  - exists a, (remove_at (Nat.modulo (pick t) (length buf')) buf', s', S t).
    split; [reflexivity|]. split.
    + rewrite Forall_forall in Hall. apply Hall.
      apply list_elem_of_In. eapply nth_error_In; eauto.
    + split; [apply remove_at_Forall; exact Hall|exact Hs'].
  - apply nth_error_None in Ha. lia.
Qed.

Lemma pull_productive {A} (it : iterator A) P Inv :
  (forall s, Inv s -> exists a s', it_next it s = Some (a, s') /\ P a /\ Inv s') ->
  forall n s, Inv s ->
    exists l s', pull it n s = (l, s') /\
      length l = n /\ Forall P l /\ Inv s'.
Proof.
  intros Hstep. induction n as [|n IH]; intros s Hs; simpl.
  - exists [], s. repeat split; auto.
  - destruct (Hstep s Hs) as (a & s1 & Hn & Ha & Hs1). rewrite Hn.
    destruct (IH s1 Hs1) as (l & s' & Hp & Hl & Hall & Hs'). rewrite Hp.
    exists (a :: l), s'. repeat split; simpl; auto.
Qed.

Lemma batch_productive {A} (it : iterator A) P n drop :
  productive it P ->
  productive (batch_it it n drop) (fun l => length l = n /\ Forall P l).
Proof.
  intros (Inv & Hinit & Hstep). exists Inv. split; [exact Hinit|].
  intros s Hs. simpl.
  destruct (pull_productive it P Inv Hstep n s Hs) as (l & s' & Hp & Hl & Hall & Hs').
  rewrite Hp, Hl, Nat.eqb_refl. exists l, s'. auto.
Qed.

Lemma map_productive {A B} (f : A -> B) (it : iterator A) P Q :
  (forall a, P a -> Q (f a)) ->
  productive it P -> productive (map_it f it) Q.
Proof.
  intros Hf (Inv & Hinit & Hstep). exists Inv. split; [exact Hinit|].
  intros s Hs. simpl. destruct (Hstep s Hs) as (a & s' & Hn & Ha & Hs').
  rewrite Hn. exists (f a), s'. auto.
Qed.

End PipelineFacts.

(** * The input function *)

Module InputFacts.
Import EffectsFacts SyntaxFacts Trainer TF Observe Pipeline PipelineFacts.

Lemma merge_with_batch_dim n k :
  merge_with [Some n; Some k] [Some n; None] = Ret [Some n; Some k].
Proof. unfold merge_with. cbn. rewrite Z.eqb_refl. reflexivity. Qed.

Lemma merge_with_same n k :
  merge_with [Some n; Some k] [Some n; Some k] = Ret [Some n; Some k].
Proof. unfold merge_with. cbn. rewrite !Z.eqb_refl. reflexivity. Qed.

Lemma train_input_fn_run h params n :
  dict_get params "train_batch_size" (PInt 16) = PInt n ->
  run no_failure (train_input_fn params) h =
  (Ok (built_dataset h n), input_calls (PInt n)).
Proof.
  intros Hn. unfold train_input_fn. rewrite Hn. cbn.
  unfold set_shape. cbn [comp_shape comp_index].
  rewrite !merge_with_batch_dim. cbn [bind].
  rewrite !merge_with_same. reflexivity.
Qed.

Lemma train_input_fn_not_int h params :
  (forall n, dict_get params "train_batch_size" (PInt 16) <> PInt n) ->
  run no_failure (train_input_fn params) h =
  (Raise (TypeError "batch_size"),
   firstn 6 (input_calls (dict_get params "train_batch_size" (PInt 16)))).
Proof.
  intros Hn. unfold train_input_fn.
  destruct (dict_get params "train_batch_size" (PInt 16)) as [|b|n|s];
    try reflexivity.
  exfalso. apply (Hn n). reflexivity.
Qed.

Lemma train_input_fn_returns raises h params d t :
  run raises (train_input_fn params) h = (Ok d, t) ->
  exists n, dict_get params "train_batch_size" (PInt 16) = PInt n /\
            d = built_dataset h n /\ t = input_calls (PInt n).
Proof.
  intros Hrun.
  apply run_ok_no_failure in Hrun;
    [|apply straight_line_handler_free, train_input_fn_straight].
  destruct (dict_get params "train_batch_size" (PInt 16)) as [|b|n|s] eqn:Hv.
  1,2,4: rewrite train_input_fn_not_int in Hrun by (rewrite Hv; discriminate);
         discriminate.
  rewrite (train_input_fn_run h params n Hv) in Hrun.
  injection Hrun as <- <-. eauto.
Qed.

Section Batches.
Variable R : Type.
Variable rng : nat -> nat -> nat -> R.
Variable pick : nat -> nat.






End Batches.


Lemma input_calls_no_storage v :
  Forall (fun c => touches_storage c = false) (input_calls v).
Proof. repeat constructor. Qed.

Lemma train_input_fn_trace_prefix raises h params r t :
  run raises (train_input_fn params) h = (r, t) ->
  exists rest,
    input_calls (dict_get params "train_batch_size" (PInt 16)) = t ++ rest.
Proof.
  intros Hrun.
  destruct (straight_line_trace_prefix raises _ h r t
              (train_input_fn_straight params) Hrun) as [rest Hrest].
  destruct (dict_get params "train_batch_size" (PInt 16)) as [|b|n|s] eqn:Hv.
  1,2,4: rewrite train_input_fn_not_int in Hrest by (rewrite Hv; discriminate);
         rewrite Hv in Hrest; simpl in Hrest;
         eexists (rest ++ [_; _]); rewrite app_assoc, <- Hrest; reflexivity.
  rewrite (train_input_fn_run h params n Hv) in Hrest. simpl in Hrest.
  exists rest. exact Hrest.
Qed.


(** C9: every invocation of train_input_fn draws a normal noise tensor of
    shape (100, 5) and a uniform real-data tensor of shape (100, 3) anew
    (two invocations slice different nodes), builds the dataset from those
    two tensors, and makes no call that touches storage. *)
Theorem train_input_fn_regenerates_data :
  forall raises h params,
    (forall r t,
       run raises (train_input_fn params) h = (r, t) ->
       Forall (fun c => touches_storage c = false) t /\
       exists rest,
         input_calls (dict_get params "train_batch_size" (PInt 16))
         = t ++ rest) /\
    (forall d t,
       run raises (train_input_fn params) h = (Ok d, t) ->
       sources d = Some (RandomNormal (length h) [100; 5],
                         RandomUniform (S (length h)) [100; 3]) /\
       List.filter is_draw t
       = [Call_random_normal [100; 5]; Call_random_uniform [100; 3]]) /\
    (forall params' d1 d2 t,
       run raises (two_invocations params params') h = (Ok (d1, d2), t) ->
       sources d1 <> sources d2 /\
       List.filter is_draw t
       = [Call_random_normal [100; 5]; Call_random_uniform [100; 3];
          Call_random_normal [100; 5]; Call_random_uniform [100; 3]]).
Proof.
  intros raises h params. split; [|split].
  - intros r t Hrun.
    destruct (train_input_fn_trace_prefix _ _ _ _ _ Hrun) as [rest Hrest].
    split; [|eauto].
    pose proof (input_calls_no_storage
                  (dict_get params "train_batch_size" (PInt 16))) as Hall.
    rewrite Hrest in Hall. apply Forall_app in Hall. tauto.
  - intros d t Hrun.
    destruct (train_input_fn_returns _ _ _ _ _ Hrun) as (n & Hn & -> & ->).
    split; reflexivity.
  - intros params' d1 d2 t Hrun. unfold two_invocations in Hrun.
    rewrite run_bind in Hrun.
    destruct (run raises (train_input_fn params) h) as [[e1|x] t1] eqn:E1;
      [|discriminate].
    destruct (train_input_fn_returns _ _ _ _ _ E1) as (n & Hn & -> & ->).
    rewrite run_bind in Hrun.
    destruct (run raises (train_input_fn params') _) as [[e2|x] t2] eqn:E2;
      [|discriminate].
    destruct (train_input_fn_returns _ _ _ _ _ E2) as (n' & Hn' & -> & ->).
    simpl in Hrun. injection Hrun as <- <- <-.
    split; [|reflexivity].
    simpl. intros E. injection E as E _. lia.
Qed.

End InputFacts.

(** * The command line and the notebook special case *)

Module ScriptFacts.
Import EffectsFacts SyntaxFacts Trainer TF Observe Argparse.

Lemma option_tuples_In p t a e :
  In (a, e) (option_tuples p t) -> In a p.
Proof.
  unfold option_tuples.
  destruct (String.prefix "--" t).
  - destruct (split_at "=" t) as [[o e']|]; intros Hin;
      apply in_map_iff in Hin; destruct Hin as (x & E & Hx);
      injection E as -> _; apply filter_In in Hx; tauto.
  - intros Hin. apply in_map_iff in Hin. destruct Hin as (x & E & Hx).
    injection E as -> _. apply filter_In in Hx. tauto.
Qed.

Lemma parse_optional_In p t a e :
  parse_optional p t = Known a e -> In a p.
Proof.
  unfold parse_optional. destruct t as [|c r]; [discriminate|].
  destruct (negb (is_dash c)); [discriminate|].
  destruct (find_option p (String c r)) as [a0|] eqn:Hf.
  { intros E. injection E as <- _. unfold find_option in Hf.
    apply find_some in Hf. tauto. }
  destruct (negb (nonempty r)); [discriminate|].
  assert (Htuples :
    match option_tuples p (String c r) with
    | _ :: _ :: _ => Ambiguous
    | [(a1, e1)] => Known a1 e1
    | [] => if looks_negative_number (String c r) then Positional
            else if has_space (String c r) then Positional else Unknown
    end = Known a e -> In a p).
  { destruct (option_tuples p (String c r)) as [|[x ex] [|y l]] eqn:Ht.
    - destruct (looks_negative_number _); [discriminate|].
      destruct (has_space _); discriminate.
    - intros E. injection E as <- _.
      apply (option_tuples_In p (String c r) x ex). rewrite Ht. left. reflexivity.
    - discriminate. }
  destruct (split_at "=" (String c r)) as [[o e']|]; [|exact Htuples].
  destruct (find_option p o) as [a1|] eqn:Hf1; [|exact Htuples].
  intros E. injection E as <- _. unfold find_option in Hf1.
  apply find_some in Hf1. tauto.
Qed.


Ltac namespace_eq :=
  unfold Namespace, tpu_value; apply map_eq; intros k;
  rewrite !lookup_insert; repeat case_decide; congruence.

Lemma set_model_dir md bs cs ut tp v :
  <["model_dir" := PStr v]> (Namespace md bs cs ut tp) = Namespace v bs cs ut tp.
Proof. namespace_eq. Qed.

Lemma set_train_batch_size md bs cs ut tp n :
  <["train_batch_size" := PInt n]> (Namespace md bs cs ut tp)
  = Namespace md n cs ut tp.
Proof. namespace_eq. Qed.

Lemma set_save_checkpoints_steps md bs cs ut tp n :
  <["save_checkpoints_steps" := PInt n]> (Namespace md bs cs ut tp)
  = Namespace md bs n ut tp.
Proof. namespace_eq. Qed.

Lemma set_use_tpu md bs cs ut tp b :
  <["use_tpu" := PBool b]> (Namespace md bs cs ut tp) = Namespace md bs cs b tp.
Proof. namespace_eq. Qed.

Lemma set_tpu md bs cs ut tp v :
  <["tpu" := PStr v]> (Namespace md bs cs ut tp) = Namespace md bs cs ut (Some v).
Proof. namespace_eq. Qed.

Lemma defaults_namespace :
  defaults script_parser = Namespace "/tmp/tpu-template" 16 10 false None.
Proof. vm_compute. reflexivity. Qed.

Lemma store_namespace a ty v ns ns' :
  In a script_parser -> action a = ActStore ty -> is_namespace ns ->
  store a ty v ns = Ok ns' -> is_namespace ns'.
Proof.
  intros Hin Hact (md & bs & cs & ut & tp & ->) Hst. unfold store in Hst.
  simpl in Hin.
  destruct Hin as [<-|[<-|[<-|[<-|[<-|[]]]]]]; simpl in Hact;
    try discriminate; injection Hact as <-; unfold convert in Hst;
    try (destruct (int_of_string v); [|discriminate]);
    injection Hst as <-; change (dest _) with "model_dir" || 
    change (dest _) with "train_batch_size" ||
    change (dest _) with "save_checkpoints_steps" ||
    change (dest _) with "tpu".
  - rewrite set_model_dir. repeat eexists.
  - rewrite set_train_batch_size. repeat eexists.
  - rewrite set_save_checkpoints_steps. repeat eexists.
  - rewrite set_tpu. repeat eexists.
Qed.

Lemma store_true_namespace a ns :
  In a script_parser -> action a = ActStoreTrue -> is_namespace ns ->
  is_namespace (<[dest a := PBool true]> ns).
Proof.
  intros Hin Hact (md & bs & cs & ut & tp & ->). simpl in Hin.
  destruct Hin as [<-|[<-|[<-|[<-|[<-|[]]]]]]; simpl in Hact; try discriminate.
  change (dest _) with "use_tpu". rewrite set_use_tpu. repeat eexists.
Qed.

(** Induction on command lines, two tokens at a time when needed. *)
Lemma tokens_ind (P : list string -> Prop) :
  (forall tokens, (forall shorter, (length shorter < length tokens)%nat -> P shorter) -> P tokens) ->
  forall tokens, P tokens.
Proof.
  intros Hstep tokens.
  assert (H : forall n shorter, (length shorter < n)%nat -> P shorter).
  { induction n as [|n IH]; intros shorter Hlt; [lia|].
    apply Hstep. intros s Hs. apply IH. lia. }
  apply (H (S (length tokens))). lia.
Qed.

Lemma consume_namespace tokens :
  forall ns extras r,
    is_namespace ns ->
    consume script_parser ns extras tokens = Ok r ->
    is_namespace (fst r).
Proof.
  induction tokens as [tokens IH] using tokens_ind.
  intros ns extras r Hns Hc. destruct tokens as [|t rest]; simpl in Hc.
  { injection Hc as <-. exact Hns. }
  destruct (String.eqb t "--"); [injection Hc as <-; exact Hns|].
  destruct (parse_optional script_parser t) as [|a [e|]| |] eqn:Hp;
    try discriminate;
    try (eapply (IH rest); [simpl; lia|exact Hns|exact Hc]).
  - pose proof (parse_optional_In _ _ _ _ Hp) as Hin.
    destruct (action a) as [ty|] eqn:Ha; [|discriminate].
    destruct (store a ty e ns) as [ns'|] eqn:Hs; [|discriminate].
    eapply (IH rest); [simpl; lia|eapply store_namespace; eauto|exact Hc].
  - pose proof (parse_optional_In _ _ _ _ Hp) as Hin.
    destruct (action a) as [ty|] eqn:Ha.
    + destruct rest as [|v rest']; [discriminate|].
      destruct (is_value script_parser v).
      * destruct (store a ty v ns) as [ns'|] eqn:Hs; [|discriminate].
        eapply (IH rest'); [simpl; lia|eapply store_namespace; eauto|exact Hc].
      * discriminate.
    + assert (Hlt : (length rest < length (t :: rest))%nat) by (simpl; lia).
      exact (IH rest Hlt _ _ _ (store_true_namespace a ns Hin Ha Hns) Hc).
Qed.

(** Whatever the command line, a successful parse yields a namespace with
    the five attributes. *)
Lemma parse_known_args_namespace args ns extras :
  parse_known_args script_parser args = Ok (ns, extras) -> is_namespace ns.
Proof.
  unfold parse_known_args. intros Hc.
  apply (consume_namespace args _ _ _) in Hc; [exact Hc|].
  rewrite defaults_namespace. repeat eexists.
Qed.




(** What the notebook special case leaves in the namespace. *)
Lemma colab_setup_run w h md bs cs ut tp args t :
  "google.colab" ∈ modules w ->
  run no_failure (colab_setup w (Namespace md bs cs ut tp)) h = (Ok args, t) ->
  match environ w !! "COLAB_TPU_ADDR" with
  | Some addr =>
      args = Namespace "gs://your-gcs-bucket" bs cs true
                       (Some (String.append "grpc://" addr))
  | None => args = Namespace "gs://your-gcs-bucket" bs cs ut tp
  end.
Proof.
  intros Hcolab. unfold colab_setup.
  destruct (decide _) as [_|Hn]; [|contradiction].
  rewrite set_model_dir.
  destruct (environ w !! "COLAB_TPU_ADDR") as [addr|].
  - rewrite set_tpu, set_use_tpu. cbn.
    destruct (files w !! "/content/adc.json"); cbn; intros E; [|discriminate].
    injection E as <- _. reflexivity.
  - cbn. intros E. injection E as <- _. reflexivity.
Qed.

Lemma Namespace_lookups md bs cs ut tp :
  Namespace md bs cs ut tp !! "model_dir" = Some (PStr md) /\
  Namespace md bs cs ut tp !! "train_batch_size" = Some (PInt bs) /\
  Namespace md bs cs ut tp !! "save_checkpoints_steps" = Some (PInt cs) /\
  Namespace md bs cs ut tp !! "use_tpu" = Some (PBool ut) /\
  Namespace md bs cs ut tp !! "tpu" = Some (tpu_value tp).
Proof. repeat split. Qed.

(** C7: with the google.colab module loaded, the namespace main is called
    with has model_dir overwritten by 'gs://your-gcs-bucket'; if
    COLAB_TPU_ADDR is set as well, its tpu is 'grpc://' followed by the
    variable's value and its use_tpu is True; and main runs only after
    that, on exactly that namespace. *)
Theorem colab_overrides_before_main :
  forall raises h w,
    "google.colab" ∈ modules w ->
    (forall args t,
       run raises (script_args w) h = (Ok args, t) ->
       (exists bs cs ut tp,
          args = Namespace "gs://your-gcs-bucket" bs cs ut tp /\
          forall addr, environ w !! "COLAB_TPU_ADDR" = Some addr ->
            ut = true /\ tp = Some (String.append "grpc://" addr)) /\
       args !! "model_dir" = Some (PStr "gs://your-gcs-bucket") /\
       (forall addr, environ w !! "COLAB_TPU_ADDR" = Some addr ->
          args !! "tpu" = Some (PStr (String.append "grpc://" addr)) /\
          args !! "use_tpu" = Some (PBool true))) /\
    (forall r t,
       run raises (script w) h = (r, t) ->
       (exists e, run raises (script_args w) h = (Raise e, t) /\ r = Raise e) \/
       (exists args ta tm,
          run raises (script_args w) h = (Ok args, ta) /\
          run raises (main args) (rev_append ta h) = (r, tm) /\
          t = ta ++ tm)).
Proof.
  intros raises h w Hcolab. split.
  - intros args t Hrun.
    apply run_ok_no_failure in Hrun; [|apply script_args_handler_free].
    unfold script_args in Hrun. rewrite run_bind in Hrun.
    destruct (parse_known_args script_parser (argv w)) as [[ns extras]|e] eqn:Hp;
      [|discriminate].
    destruct (parse_known_args_namespace _ _ _ Hp) as (md & bs & cs & ut & tp & ->).
    cbn [lift run fst rev_append] in Hrun.
    destruct (run no_failure (colab_setup w _) h) as [r' t'] eqn:Hc.
    injection Hrun as -> <-.
    apply (colab_setup_run w h md bs cs ut tp args t' Hcolab) in Hc.
    destruct (environ w !! "COLAB_TPU_ADDR") as [addr|]; subst args.
    + split; [|split].
      * eexists _, _, _, _. split; [reflexivity|].
        intros a E. injection E as <-. auto.
      * reflexivity.
      * intros a E. injection E as <-. split; reflexivity.
    + split; [|split].
      * eexists _, _, _, _. split; [reflexivity|]. discriminate.
      * reflexivity.
      * discriminate.
  - intros r t Hrun. unfold script in Hrun. rewrite run_bind in Hrun.
    destruct (run raises (script_args w) h) as [[args|e] ta].
    + right. destruct (run raises (main args) (rev_append ta h)) as [r' tm] eqn:Hm.
      injection Hrun as <- <-. exists args, ta, tm. auto.
    + left. injection Hrun as <- <-. exists e. auto.
Qed.


End ScriptFacts.

(** * Errors *)

Module ErrorFacts.
Import EffectsFacts SyntaxFacts Trainer TF Observe.

(** A handler does recover: [no_recovery] is a property programs can lack. *)
Lemma retrying_recovers x : ~ no_recovery (retrying x).
Proof.
  intros H.
  specialize (H fails_once [] (Ok (Dense 1 x 3)) [Call_dense 3; Call_dense 3]
                (FrameworkError "unavailable") eq_refl eq_refl).
  discriminate.
Qed.

(** C10: no function of the script has a handler: in generator_fn,
    discriminator_fn, model_fn, set_shapes, train_input_fn and main a
    failing framework call is the last thing done and its exception is the
    outcome, unchanged; the script as a whole has no try/except either, and
    ends with the exception of the last framework call that failed. *)
Theorem errors_propagate_unchanged :
  (forall x, fail_fast (generator_fn x)) /\
  (forall data g, fail_fast (discriminator_fn data g)) /\
  (forall features labels mode params,
     fail_fast (model_fn features labels mode params)) /\
  (forall batch_size features labels,
     fail_fast (set_shapes batch_size features labels)) /\
  (forall params, fail_fast (train_input_fn params)) /\
  (forall args, fail_fast (main args)) /\
  (forall w, handler_free (script w) /\ no_recovery (script w)).
Proof.
  split; [intros; apply straight_line_fail_fast, generator_fn_straight|].
  split; [intros; apply straight_line_fail_fast, discriminator_fn_straight|].
  split; [intros; apply straight_line_fail_fast, model_fn_straight|].
  split; [intros; apply straight_line_fail_fast, set_shapes_straight|].
  split; [intros; apply straight_line_fail_fast, train_input_fn_straight|].
  split; [intros; apply straight_line_fail_fast, main_straight|].
  intros w. split.
  - apply script_handler_free.
  - apply handler_free_no_recovery, script_handler_free.
Qed.

End ErrorFacts.

(** * The theorems at concrete inputs *)

Module Examples.
Import Trainer TF Observe Argparse Pipeline LoopSem.
Import ModelFacts MainFacts InputFacts ScriptFacts ErrorFacts.

(** The command line on a few inputs: abbreviations, an ambiguous prefix,
    a missing value, values that look like options, integers as [int]
    reads them. *)
Example parse_abbreviations :
  parse_known_args script_parser ["--train=32"; "--u"; "--tp"; "host:8470"]
  = Ok (Namespace "/tmp/tpu-template" 32 10 true (Some "host:8470"), []).
Proof. vm_compute. reflexivity. Qed.

Example parse_ambiguous_prefix :
  parse_known_args script_parser ["--t"; "3"] = Raise (SystemExit 2).
Proof. vm_compute. reflexivity. Qed.

Example parse_missing_value :
  parse_known_args script_parser ["--tpu"; "--use-tpu"] = Raise (SystemExit 2).
Proof. vm_compute. reflexivity. Qed.

Example parse_negative_batch_size :
  parse_known_args script_parser ["--train-batch-size"; "-5"; " 1_2 "]
  = Ok (Namespace "/tmp/tpu-template" (-5) 10 false None, [" 1_2 "]).
Proof. vm_compute. reflexivity. Qed.

Example parse_after_double_dash :
  parse_known_args script_parser ["--tpu"; "a"; "--"; "--use-tpu"]
  = Ok (Namespace "/tmp/tpu-template" 16 10 false (Some "a"),
        ["--"; "--use-tpu"]).
Proof. vm_compute. reflexivity. Qed.

(** The handler of [retrying] hides the first failure. *)
Example retrying_run x :
  run fails_once (retrying x) []
  = (Ok (Dense 1 x 3), [Call_dense 3; Call_dense 3]).
Proof. reflexivity. Qed.

(** A failure inside the [with] block: the session is still left, and the
    failure escapes. *)
Example colab_credentials_failure :
  run fails_configure_gcs (script_args example_world) []
  = (Raise (FrameworkError "permission denied"),
     [Call_authenticate_user; Call_Session "grpc://10.0.0.2:8470";
      Call_open "/content/adc.json"; Call_json_load;
      Call_configure_gcs "grpc://10.0.0.2:8470" "{}";
      Call_Session_exit "grpc://10.0.0.2:8470"]).
Proof. vm_compute. reflexivity. Qed.

(** The first batch of the pipeline for batch size 2, numbering the drawn
    entries [100 * row + column] and always picking slot 0. *)
Example first_batch :
  match batches nat (fun _ i j => (100 * i + j)%nat) (fun _ => O)
                (built_dataset [] 2) with
  | Some it => get it 0
  | None => None
  end
  = Some ([[0; 1; 2; 3; 4]; [100; 101; 102; 103; 104]]%nat,
          [[0; 1; 2]; [100; 101; 102]]%nat).
Proof. vm_compute. reflexivity. Qed.

(** A batch size that is not positive yields no iterator at all. *)
Example no_batches_of_size_zero :
  batches nat (fun _ i j => (100 * i + j)%nat) (fun _ => O) (built_dataset [] 0)
  = None.
Proof. reflexivity. Qed.


Lemma main_trains_one_estimator_witness :
  run no_failure (main (Namespace "/tmp/tpu-template" 16 10 true None)) []
  = (Ok tt, main_calls "/tmp/tpu-template" 16 10 true None) /\
  exists est,
    estimators_built (main_calls "/tmp/tpu-template" 16 10 true None) = [est] /\
    is_tpu_estimator est = true /\
    trainings (main_calls "/tmp/tpu-template" 16 10 true None)
    = [(est, "train_input_fn", 100)].
Proof.
  assert (Hrun :
    run no_failure (main (Namespace "/tmp/tpu-template" 16 10 true None)) []
    = (Ok tt, main_calls "/tmp/tpu-template" 16 10 true None))
    by (vm_compute; reflexivity).
  split; [exact Hrun|].
  destruct (proj1 (main_trains_one_estimator no_failure []
                     "/tmp/tpu-template" 16 10 true None) _ _ Hrun)
    as (_ & _ & H).
  exact (H eq_refl).
Defined.

Lemma checkpoint_flag_only_on_tpu_path_witness :
  run no_failure (main (Namespace "/tmp/tpu-template" 16 25 true None)) []
  = (Ok tt, main_calls "/tmp/tpu-template" 16 25 true None) /\
  tpu_configs (main_calls "/tmp/tpu-template" 16 25 true None)
  = [TPUConfig 8 (PInt 25)].
Proof.
  assert (Hrun :
    run no_failure (main (Namespace "/tmp/tpu-template" 16 25 true None)) []
    = (Ok tt, main_calls "/tmp/tpu-template" 16 25 true None))
    by (vm_compute; reflexivity).
  split; [exact Hrun|].
  exact (proj1 (proj1 (checkpoint_flag_only_on_tpu_path no_failure []
                         "/tmp/tpu-template" 16 25 None) _ Hrun)).
Defined.



Lemma colab_overrides_before_main_witness :
  "google.colab" ∈ modules example_world /\
  run no_failure (script_args example_world) []
  = (Ok (Namespace "gs://your-gcs-bucket" 32 10 true
                   (Some "grpc://10.0.0.2:8470")),
     [Call_authenticate_user; Call_Session "grpc://10.0.0.2:8470";
      Call_open "/content/adc.json"; Call_json_load;
      Call_configure_gcs "grpc://10.0.0.2:8470" "{}";
      Call_Session_exit "grpc://10.0.0.2:8470"]) /\
  Namespace "gs://your-gcs-bucket" 32 10 true (Some "grpc://10.0.0.2:8470")
    !! "model_dir" = Some (PStr "gs://your-gcs-bucket").
Proof.
  assert (Hcolab : "google.colab" ∈ modules example_world)
    by (vm_compute; reflexivity).
  assert (Hrun :
    run no_failure (script_args example_world) []
    = (Ok (Namespace "gs://your-gcs-bucket" 32 10 true
                     (Some "grpc://10.0.0.2:8470")),
       [Call_authenticate_user; Call_Session "grpc://10.0.0.2:8470";
        Call_open "/content/adc.json"; Call_json_load;
        Call_configure_gcs "grpc://10.0.0.2:8470" "{}";
        Call_Session_exit "grpc://10.0.0.2:8470"]))
    by (vm_compute; reflexivity).
  split; [exact Hcolab|]. split; [exact Hrun|].
  exact (proj1 (proj2 (proj1 (colab_overrides_before_main no_failure []
                                example_world Hcolab) _ _ Hrun))).
Defined.


Lemma train_input_fn_regenerates_data_witness :
  run no_failure (two_invocations ∅ ∅) []
  = (Ok (built_dataset [] 16,
         built_dataset (rev (input_calls (PInt 16))) 16),
     input_calls (PInt 16) ++ input_calls (PInt 16)) /\
  sources (built_dataset [] 16)
  <> sources (built_dataset (rev (input_calls (PInt 16))) 16).
Proof.
  assert (Hrun :
    run no_failure (two_invocations ∅ ∅) []
    = (Ok (built_dataset [] 16,
           built_dataset (rev (input_calls (PInt 16))) 16),
       input_calls (PInt 16) ++ input_calls (PInt 16)))
    by (vm_compute; reflexivity).
  split; [exact Hrun|].
  exact (proj1 (proj2 (proj2 (train_input_fn_regenerates_data no_failure [] ∅))
                  ∅ _ _ _ Hrun)).
Defined.

Lemma errors_propagate_unchanged_witness :
  run fails_gan_loss
      (model_fn example_features example_labels TRAIN {["use_tpu" := PBool true]})
      []
  = (Raise (ValueError "shape mismatch"),
     [Call_get_global_step; Call_gan_model; Call_dense 3; Call_dense 1;
      Call_dense 1] ++ Call_gan_loss false :: []) /\
  run fails_configure_gcs (script example_world) []
  = (Raise (FrameworkError "permission denied"),
     [Call_authenticate_user; Call_Session "grpc://10.0.0.2:8470";
      Call_open "/content/adc.json"; Call_json_load;
      Call_configure_gcs "grpc://10.0.0.2:8470" "{}";
      Call_Session_exit "grpc://10.0.0.2:8470"]) /\
  (@nil call = [] /\
   @Raise estimator_spec (ValueError "shape mismatch")
   = Raise (ValueError "shape mismatch")) /\
  @Raise unit (FrameworkError "permission denied")
  = Raise (FrameworkError "permission denied").
Proof.
  assert (Hrun :
    run fails_gan_loss
        (model_fn example_features example_labels TRAIN
                  {["use_tpu" := PBool true]}) []
    = (Raise (ValueError "shape mismatch"),
       [Call_get_global_step; Call_gan_model; Call_dense 3; Call_dense 1;
        Call_dense 1] ++ Call_gan_loss false :: []))
    by (vm_compute; reflexivity).
  assert (Hscript :
    run fails_configure_gcs (script example_world) []
    = (Raise (FrameworkError "permission denied"),
       [Call_authenticate_user; Call_Session "grpc://10.0.0.2:8470";
        Call_open "/content/adc.json"; Call_json_load;
        Call_configure_gcs "grpc://10.0.0.2:8470" "{}";
        Call_Session_exit "grpc://10.0.0.2:8470"]))
    by (vm_compute; reflexivity).
  split; [exact Hrun|]. split; [exact Hscript|]. split.
  - exact (proj1 (proj2 (proj2 errors_propagate_unchanged))
             example_features example_labels TRAIN {["use_tpu" := PBool true]}
             fails_gan_loss [] _ _ _ _ _ Hrun eq_refl).
  - exact (proj2 (proj2 (proj2 (proj2 (proj2 (proj2 (proj2
             errors_propagate_unchanged))))) example_world)
             fails_configure_gcs [] _ _ _ Hscript eq_refl).
Defined.

End Examples.

(** * More about the model function *)

Module ModelMore.
Import EffectsFacts SyntaxFacts Trainer TF Observe LoopSem ModelFacts Further.

(** X1: without the key 'use_tpu' model_fn never returns: when no framework
    call fails it raises KeyError('use_tpu'), in training mode only after
    gan_loss and both optimizers were created, in the other modes right
    after the GAN model. *)
Theorem model_fn_without_use_tpu :
  forall raises h features labels mode params,
    params !! "use_tpu" = None ->
    (forall r t,
       run raises (model_fn features labels mode params) h = (r, t) ->
       is_ok r = false) /\
    run no_failure (model_fn features labels mode params) h
    = (Raise (KeyError "use_tpu"),
       [Call_get_global_step; Call_gan_model; Call_dense 3; Call_dense 1;
        Call_dense 1]
       ++ (if decide (mode = TRAIN)
           then [Call_gan_loss false;
                 Call_RMSPropOptimizer (FloatLit 5 (-2));
                 Call_RMSPropOptimizer (FloatLit 5 (-2))]
           else [])).
Proof.
  intros raises h features labels mode params Hv. split.
  - intros [s|e] t Hrun; [|reflexivity].
    destruct (model_fn_returns_key _ _ _ _ _ _ _ _ Hrun) as [v Hv'].
    congruence.
  - unfold model_fn, train_branch, getitem. rewrite Hv.
    destruct (decide (mode = TRAIN)); reflexivity.
Qed.

Lemma model_fn_no_failure_trace h features labels mode params :
  mode <> TRAIN ->
  Forall (fun c => builds_training c = false)
         (snd (run no_failure (model_fn features labels mode params) h)).
Proof.
  intros Hm. destruct (params !! "use_tpu") as [v|] eqn:Hv.
  - rewrite (model_fn_other_run h features labels mode params v Hm Hv).
    simpl. destruct (truthy v); repeat constructor.
  - unfold model_fn, getitem. rewrite Hv.
    destruct (decide (mode = TRAIN)); [contradiction|]. repeat constructor.
Qed.

(** X2: outside training mode model_fn makes no call of the training
    branch, whatever params holds and whichever framework call fails: no
    loss, no optimizer, no loop, no increment of the global step. *)
Theorem model_fn_eval_builds_no_training :
  forall raises h features labels mode params r t,
    mode <> TRAIN ->
    run raises (model_fn features labels mode params) h = (r, t) ->
    Forall (fun c => builds_training c = false) t.
Proof.
  intros raises h features labels mode params r t Hm Hrun.
  destruct (straight_line_trace_prefix raises _ h r t
              (model_fn_straight _ _ _ _) Hrun) as [rest Hrest].
  pose proof (model_fn_no_failure_trace h features labels mode params Hm) as Hall.
  rewrite Hrest in Hall. apply Forall_app in Hall. tauto.
Qed.



End ModelMore.

(** * More about the input function *)

Module InputMore.
Import EffectsFacts SyntaxFacts Trainer TF Observe Pipeline PipelineFacts.
Import InputFacts ModelFacts Further.



Lemma combine_map_same {X Y Z'} (f : X -> Y) (g : X -> Z') l :
  List.combine (List.map f l) (List.map g l) = List.map (fun i => (f i, g i)) l.
Proof. induction l as [|a l IH]; simpl; [reflexivity|]. rewrite IH. reflexivity. Qed.

Lemma drawn_rows_aligned {R} (rng : nat -> nat -> nat -> R) h :
  List.Forall (aligned rng h)
    (List.combine
       (tabulate 100 (fun i => tabulate 5 (fun j => rng (length h) i j)))
       (tabulate 100 (fun i => tabulate 3 (fun j => rng (S (length h)) i j)))).
Proof.
  unfold tabulate at 1 3. rewrite combine_map_same.
  apply List.Forall_forall. intros e He. apply in_map_iff in He.
  destruct He as (i & <- & Hi). apply in_seq in Hi.
  exists i. split; [lia|]. split; reflexivity.
Qed.

Lemma built_dataset_aligned {R} (rng : nat -> nat -> nat -> R) pick h n :
  0 < n ->
  exists it, batches R rng pick (built_dataset h n) = Some it /\
             productive it (fun b =>
               length (fst b) = length (snd b) /\
               List.Forall (aligned rng h) (List.combine (fst b) (snd b))).
Proof.
  intros Hn. unfold built_dataset. cbn [batches elements matrix].
  destruct (Z.leb n 0) eqn:Hle; [apply Z.leb_le in Hle; lia|].
  change (Z.leb 10 0) with false. cbn [option_map].
  eexists. split; [reflexivity|].
  eapply map_productive; [|eapply map_productive;
    [|apply batch_productive; apply shuffle_productive;
      [|apply (repeat_slices_productive _ (aligned rng h));
        [|apply drawn_rows_aligned]]]].
  - intros b Hb. exact Hb.
  - intros l [_ Hall].
    pose proof (length_fst_split l) as Hl1.
    pose proof (length_snd_split l) as Hl2.
    destruct (List.split l) as [la lb] eqn:Hs. unfold select. simpl in *.
    split; [congruence|].
    rewrite (split_combine l Hs). exact Hall.
  - change (Z.to_nat 10) with 10%nat. lia.
  - change (Z.to_nat 100) with 100%nat. discriminate.
Qed.

(** X4: the pipeline keeps noise and real data aligned: in every batch of
    the dataset train_input_fn returns there are as many feature rows as
    label rows, and the k-th feature row and the k-th label row are rows of
    the two drawn tensors at one and the same index. *)
Theorem batches_keep_rows_aligned :
  forall raises h params d t,
    run raises (train_input_fn params) h = (Ok d, t) ->
    forall R (rng : nat -> nat -> nat -> R) pick it k b,
      batches R rng pick d = Some it ->
      get it k = Some b ->
      length (fst b) = length (snd b) /\
      List.Forall (aligned rng h) (List.combine (fst b) (snd b)).
Proof.
  intros raises h params d t Hrun R rng pick it k b Hit Hget.
  destruct (train_input_fn_returns _ _ _ _ _ Hrun) as (n & Hn & -> & ->).
  destruct (Z.leb n 0) eqn:Hle.
  - unfold built_dataset in Hit. cbn [batches] in Hit.
    rewrite Hle in Hit. discriminate.
  - apply Z.leb_gt in Hle.
    destruct (built_dataset_aligned rng pick h n Hle) as (it' & Hit' & Hp).
    rewrite Hit in Hit'. injection Hit' as <-.
    destruct (productive_get _ _ Hp k) as (b' & Hb' & Hw).
    rewrite Hget in Hb'. injection Hb' as <-. exact Hw.
Qed.


End InputMore.

(** * More about the main routine *)

Module MainMore.
Import EffectsFacts SyntaxFacts Trainer TF Observe.
Import ModelFacts MainFacts InputFacts Further.


(** X7: the TPU address is used only on the TPU path.  With use_tpu False
    main makes no TPUClusterResolver and no TPUConfig call, whatever
    args.tpu is and whichever call fails; with use_tpu True every resolver
    call gets args.tpu as it is, None included. *)
Theorem tpu_address_only_on_tpu_path :
  forall raises h md bs cs tpu r t,
    (run raises (main (Namespace md bs cs false tpu)) h = (r, t) ->
     Forall (fun c => is_tpu_setup c = false) t) /\
    (run raises (main (Namespace md bs cs true tpu)) h = (r, t) ->
     (forall x, In (Call_TPUClusterResolver x) t -> x = tpu_value tpu) /\
     (r = Ok tt -> In (Call_TPUClusterResolver (tpu_value tpu)) t)).
Proof.
  intros raises h md bs cs tpu r t. split; intros Hrun.
  - destruct (straight_line_trace_prefix raises _ h r t (main_straight _) Hrun)
      as [rest Hrest].
    rewrite main_run in Hrest. simpl in Hrest.
    assert (Hall : Forall (fun c => is_tpu_setup c = false) (t ++ rest))
      by (rewrite <- Hrest; repeat constructor).
    apply Forall_app in Hall. tauto.
  - split.
    + destruct (straight_line_trace_prefix raises _ h r t (main_straight _) Hrun)
        as [rest Hrest].
      rewrite main_run in Hrest. simpl in Hrest.
      intros x Hx.
      assert (Hin : In (Call_TPUClusterResolver x) (t ++ rest))
        by (apply in_or_app; left; exact Hx).
      rewrite <- Hrest in Hin. simpl in Hin.
      destruct Hin as [E|[E|[E|[E|[E|[]]]]]]; try discriminate.
      injection E as <-. reflexivity.
    + intros ->. apply main_returns in Hrun. subst t. left. reflexivity.
Qed.

(** X8: what main reads.  Without the attribute use_tpu it raises
    AttributeError before any framework call; on the CPU path it reads
    nothing but use_tpu and model_dir: lacking model_dir it raises
    AttributeError, again before any call, and with it any namespace will
    do, the run config getting model_dir and the constant interval 10. *)
Theorem main_reads_two_attributes_on_cpu_path :
  forall raises h (args : gmap string pyval),
    (args !! "use_tpu" = None ->
     run raises (main args) h = (Raise (AttributeError "use_tpu"), [])) /\
    (forall v, args !! "use_tpu" = Some v -> truthy v = false ->
       (args !! "model_dir" = None ->
        run raises (main args) h = (Raise (AttributeError "model_dir"), [])) /\
       (forall d, args !! "model_dir" = Some d ->
          run no_failure (main args) h = (Ok tt, cpu_calls args d))).
Proof.
  intros raises h args. split.
  - intros Hu. unfold main, getattr. rewrite Hu. reflexivity.
  - intros v Hu Hv. split.
    + intros Hd. unfold main, getattr. rewrite Hu. cbn. rewrite Hv, Hd.
      reflexivity.
    + intros d Hd. unfold main, getattr. rewrite Hu. cbn. rewrite Hv, Hd.
      reflexivity.
Qed.

End MainMore.

(** * More about the command line and the notebook block *)

Module ScriptMore.
Import EffectsFacts SyntaxFacts Trainer TF Observe Argparse.
Import MainFacts ScriptFacts Further.




(** X11: in the notebook without a TPU runtime the script only
    authenticates and overwrites model_dir: it opens no session and no
    file, and tpu and use_tpu stay as the command line set them. *)
Theorem colab_without_tpu_runtime :
  forall raises h w md bs cs ut tp extras,
    "google.colab" ∈ modules w ->
    environ w !! "COLAB_TPU_ADDR" = None ->
    parse_known_args script_parser (argv w)
    = Ok (Namespace md bs cs ut tp, extras) ->
    run raises (script_args w) h
    = match raises h Call_authenticate_user with
      | Some e => (Raise e, [Call_authenticate_user])
      | None => (Ok (Namespace "gs://your-gcs-bucket" bs cs ut tp),
                 [Call_authenticate_user])
      end.
Proof.
  intros raises h w md bs cs ut tp extras Hcolab Henv Hp.
  unfold script_args, colab_setup. rewrite Hp.
  destruct (decide _) as [_|Hn]; [|contradiction].
  rewrite Henv. cbn [lift bind fst]. rewrite set_model_dir.
  cbn. destruct (raises h Call_authenticate_user); reflexivity.
Qed.

(** The [with] block: once the session exists, leaving it is the last
    call of the block, whatever the body did. *)
Lemma with_Session_trace raises {A} target (body : string -> prog A) h r t :
  run raises (with_Session target body) h = (r, t) ->
  (t = [Call_Session target] /\ exists e, r = Raise e) \/
  (exists rb tb,
     run raises (body target) (Call_Session target :: h) = (rb, tb) /\
     t = Call_Session target :: tb ++ [Call_Session_exit target]).
Proof.
  unfold with_Session. simpl.
  destruct (raises h (Call_Session target)) as [e|].
  { intros E. injection E as <- <-. left. eauto. }
  destruct (run raises (body target) (Call_Session target :: h)) as [[a|e] tb].
  - destruct (raises _ (Call_Session_exit target));
      intros E; injection E as <- <-; right; eexists _, tb;
      rewrite ?app_nil_r; split; reflexivity.
  - destruct (raises _ (Call_Session_exit target));
      intros E; injection E as <- <-; right; eexists _, tb; split; reflexivity.
Qed.

(** Reading the credentials makes no session call. *)
Lemma credentials_calls raises fs sess h r tb target :
  run raises (content <- open fs "/content/adc.json" ;;
              data <- json_load content ;;
              configure_gcs sess data) h = (r, tb) ->
  ~ In (Call_Session target) tb.
Proof.
  intros Hrun Hin.
  assert (Hs : straight_line (content <- open fs "/content/adc.json" ;;
                              data <- json_load content ;;
                              configure_gcs sess data)).
  { unfold open. cbn. intros _. destruct (fs !! "/content/adc.json"); cbn; auto. }
  destruct (straight_line_trace_prefix raises _ h r tb Hs Hrun) as [rest Hrest].
  assert (Hin' : In (Call_Session target) (tb ++ rest))
    by (apply in_or_app; left; exact Hin).
  rewrite <- Hrest in Hin'. unfold open in Hin'. cbn in Hin'.
  destruct (fs !! "/content/adc.json"); cbn in Hin';
    repeat (destruct Hin' as [E|Hin']; [discriminate|]); contradiction.
Qed.

(** X12: the session is always left.  In every run of the notebook block,
    whichever call fails, a trace that has a Session call either ends
    right there with an exception (the session could not be created) or
    ends with that session's exit. *)
Theorem session_is_always_left :
  forall raises h w r t target,
    run raises (script_args w) h = (r, t) ->
    In (Call_Session target) t ->
    (last t = Some (Call_Session target) /\ exists e, r = Raise e) \/
    last t = Some (Call_Session_exit target).
Proof.
  intros raises h w r t target Hrun Hin.
  unfold script_args in Hrun. rewrite run_bind in Hrun.
  destruct (parse_known_args script_parser (argv w)) as [[ns extras]|e];
    cbn [lift run fst rev_append] in Hrun;
    [|injection Hrun as <- <-; contradiction].
  destruct (run raises (colab_setup w ns) h) as [r' t'] eqn:Hc.
  assert (t = t' /\ r = r') as [-> ->]
    by (destruct r'; injection Hrun as <- <-; auto).
  clear Hrun. unfold colab_setup in Hc.
  destruct (decide _) as [_|_]; [|injection Hc as <- <-; contradiction].
  rewrite run_bind in Hc. unfold authenticate_user in Hc at 1.
  cbn [invoke run] in Hc.
  destruct (raises h Call_authenticate_user) as [e|].
  { injection Hc as <- <-. destruct Hin as [E|[]]. discriminate. }
  cbn [rev_append] in Hc.
  destruct (environ w !! "COLAB_TPU_ADDR") as [addr|].
  - rewrite run_bind in Hc.
    destruct (run raises (with_Session _ _) _) as [rs ts] eqn:Hs.
    assert (Hts : t' = Call_authenticate_user :: ts /\
                  (is_ok rs = false -> exists e, r' = Raise e)).
    { destruct rs as [u|e]; cbn in Hc; injection Hc as <- <-.
      - rewrite app_nil_r. split; [reflexivity|discriminate].
      - split; [reflexivity|eauto]. }
    destruct Hts as [-> Hrs].
    destruct Hin as [E|Hin]; [discriminate|].
    destruct (with_Session_trace _ _ _ _ _ _ Hs)
      as [[-> [e ->]]|(rb & tb & Hb & ->)].
    + destruct Hin as [E|[]]. injection E as <-.
      left. split; [reflexivity|]. apply Hrs. reflexivity.
    + assert (Htarget : target = String.append "grpc://" addr).
      { destruct Hin as [E|Hin]; [congruence|].
        apply in_app_or in Hin. destruct Hin as [Hin|[E|[]]]; [|discriminate].
        exfalso. exact (credentials_calls _ _ _ _ _ _ target Hb Hin). }
      subst target. right.
      change (Call_authenticate_user :: Call_Session (String.append "grpc://" addr)
                :: tb ++ [Call_Session_exit (String.append "grpc://" addr)])
        with ([Call_authenticate_user; Call_Session (String.append "grpc://" addr)]
                ++ tb ++ [Call_Session_exit (String.append "grpc://" addr)]).
      rewrite app_assoc. apply last_snoc.
  - cbn in Hc. injection Hc as <- <-. destruct Hin as [E|[]]. discriminate.
Qed.

(** X13: in the notebook with a TPU runtime but without the credentials
    file the script never reaches main: no estimator is built or trained,
    whichever call fails; when none does, it ends with the IOError of
    open, after having left the session. *)
Theorem missing_credentials_stop_the_script :
  forall raises h w addr ns extras,
    "google.colab" ∈ modules w ->
    environ w !! "COLAB_TPU_ADDR" = Some addr ->
    files w !! "/content/adc.json" = None ->
    parse_known_args script_parser (argv w) = Ok (ns, extras) ->
    (forall r t,
       run raises (script w) h = (r, t) ->
       is_ok r = false /\ estimators_built t = [] /\ trainings t = []) /\
    run no_failure (script w) h
    = (Raise (IOError "/content/adc.json"),
       [Call_authenticate_user; Call_Session (String.append "grpc://" addr);
        Call_open "/content/adc.json";
        Call_Session_exit (String.append "grpc://" addr)]).
Proof.
  intros raises h w addr ns extras Hcolab Henv Hfile Hp. split.
  - intros r t. unfold script, script_args, colab_setup. rewrite Hp.
    destruct (decide _) as [_|Hn]; [|contradiction].
    rewrite Henv. unfold with_Session, open. rewrite Hfile. cbn.
    repeat (match goal with
            | |- context [match raises ?a ?b with _ => _ end] =>
                destruct (raises a b)
            end; cbn);
      intros E; injection E as <- <-; repeat split; reflexivity.
  - unfold script, script_args, colab_setup. rewrite Hp.
    destruct (decide _) as [_|Hn]; [|contradiction].
    rewrite Henv. unfold with_Session, open. rewrite Hfile. reflexivity.
Qed.

(** X10: in the notebook with a TPU runtime and the credentials file the
    script always trains on the TPU path, at the runtime's address and into
    the hard-coded bucket, whatever the command line said about
    --model-dir, --tpu and --use-tpu: after the six calls of the notebook
    block it makes exactly main's TPU calls. *)
Theorem colab_tpu_runtime_forces_tpu_path :
  forall h w addr content md bs cs ut tp extras,
    "google.colab" ∈ modules w ->
    environ w !! "COLAB_TPU_ADDR" = Some addr ->
    files w !! "/content/adc.json" = Some content ->
    parse_known_args script_parser (argv w)
    = Ok (Namespace md bs cs ut tp, extras) ->
    let target := String.append "grpc://" addr in
    run no_failure (script w) h
    = (Ok tt,
       [Call_authenticate_user; Call_Session target;
        Call_open "/content/adc.json"; Call_json_load;
        Call_configure_gcs target content; Call_Session_exit target]
       ++ main_calls "gs://your-gcs-bucket" bs cs true (Some target)).
Proof.
  intros h w addr content md bs cs ut tp extras Hcolab Henv Hfile Hp target.
  unfold script. rewrite run_bind.
  assert (Hargs :
    run no_failure (script_args w) h
    = (Ok (Namespace "gs://your-gcs-bucket" bs cs true (Some target)),
       [Call_authenticate_user; Call_Session target;
        Call_open "/content/adc.json"; Call_json_load;
        Call_configure_gcs target content; Call_Session_exit target])).
  { unfold script_args, colab_setup. rewrite Hp.
    destruct (decide _) as [_|Hn]; [|contradiction].
    rewrite Henv. cbn [lift bind fst].
    rewrite set_model_dir, set_tpu, set_use_tpu.
    unfold with_Session, open. rewrite Hfile. reflexivity. }
  rewrite Hargs, main_run. reflexivity.
Qed.

Lemma double_dash_ambiguous : parse_optional script_parser "--" = Ambiguous.
Proof. vm_compute. reflexivity. Qed.

(** Appending a recognised flag to a command line that has no bare [--]. *)
Lemma consume_appended_flag flag a :
  parse_optional script_parser flag = Known a None ->
  forall suffix update,
    (forall ns extras,
       consume script_parser ns extras (flag :: suffix)
       = match update ns with
         | Ok ns' => Ok (ns', extras)
         | Raise e => Raise e
         end) ->
    forall tokens ns extras ns' extras',
      ~ In "--" tokens ->
      consume script_parser ns extras tokens = Ok (ns', extras') ->
      consume script_parser ns extras (tokens ++ flag :: suffix)
      = match update ns' with
        | Ok ns'' => Ok (ns'', extras')
        | Raise e => Raise e
        end.
Proof.
  intros Hflag suffix update Hupd tokens.
  induction tokens as [tokens IH] using tokens_ind.
  intros ns extras ns' extras' Hdd Hc. destruct tokens as [|t rest].
  { simpl in Hc. injection Hc as <- <-. apply Hupd. }
  assert (Ht : String.eqb t "--" = false).
  { apply String.eqb_neq. intros ->. apply Hdd. left. reflexivity. }
  assert (Hrest : ~ In "--" rest) by (intros H; apply Hdd; right; exact H).
  simpl in Hc. simpl. rewrite Ht in *.
  destruct (parse_optional script_parser t) as [|b [e|]| |] eqn:Hp;
    try discriminate;
    try (apply (IH rest); [simpl; lia|exact Hrest|exact Hc]).
  - destruct (action b) as [ty|]; [|discriminate].
    destruct (store b ty e ns) as [ns1|]; [|discriminate].
    apply (IH rest); [simpl; lia|exact Hrest|exact Hc].
  - destruct (action b) as [ty|].
    + destruct rest as [|v rest']; [discriminate|]. simpl.
      destruct (is_value script_parser v); [|discriminate].
      destruct (store b ty v ns) as [ns1|]; [|discriminate].
      apply (IH rest'); [simpl; lia| |exact Hc].
      intros H. apply Hrest. right. exact H.
    + apply (IH rest); [simpl; lia|exact Hrest|exact Hc].
Qed.

(** X14: a flag given last wins.  After any accepted command line without
    a bare [--], appending a value-taking flag (or an abbreviation the
    parser recognises) with a value sets just that attribute to the
    converted value, and appending --use-tpu sets just use_tpu to True;
    the other attributes and the extras stay as they were. *)
Theorem last_flag_wins :
  forall args ns extras flag a,
    ~ In "--" args ->
    parse_known_args script_parser args = Ok (ns, extras) ->
    parse_optional script_parser flag = Known a None ->
    (forall ty v x,
       action a = ActStore ty ->
       is_value script_parser v = true ->
       convert ty v = Ok x ->
       parse_known_args script_parser (args ++ [flag; v])
       = Ok (<[dest a := x]> ns, extras)) /\
    (action a = ActStoreTrue ->
     parse_known_args script_parser (args ++ [flag])
     = Ok (<[dest a := PBool true]> ns, extras)).
Proof.
  intros args ns extras flag a Hdd Hp Hflag.
  assert (Hne : String.eqb flag "--" = false).
  { apply String.eqb_neq. intros ->. rewrite double_dash_ambiguous in Hflag.
    discriminate. }
  unfold parse_known_args in *. split.
  - intros ty v x Ha Hv Hx.
    assert (Hupd : forall ns0 extras0,
              consume script_parser ns0 extras0 [flag; v]
              = match Ok (<[dest a := x]> ns0) with
                | Ok ns1 => Ok (ns1, extras0)
                | Raise e => Raise e
                end).
    { intros ns0 extras0. simpl. rewrite Hne, Hflag, Ha, Hv.
      unfold store. rewrite Hx. reflexivity. }
    exact (consume_appended_flag flag a Hflag [v]
             (fun ns0 => Ok (<[dest a := x]> ns0)) Hupd args _ _ _ _ Hdd Hp).
  - intros Ha.
    assert (Hupd : forall ns0 extras0,
              consume script_parser ns0 extras0 [flag]
              = match Ok (<[dest a := PBool true]> ns0) with
                | Ok ns1 => Ok (ns1, extras0)
                | Raise e => Raise e
                end).
    { intros ns0 extras0. simpl. rewrite Hne, Hflag, Ha. reflexivity. }
    exact (consume_appended_flag flag a Hflag []
             (fun ns0 => Ok (<[dest a := PBool true]> ns0)) Hupd args _ _ _ _
             Hdd Hp).
Qed.

End ScriptMore.

(** * The further theorems at concrete inputs *)

Module MoreExamples.
Import Trainer TF Observe Argparse Pipeline LoopSem Further.
Import ModelMore InputMore MainMore ScriptMore.

Lemma model_fn_without_use_tpu_witness :
  (∅ : gmap string pyval) !! "use_tpu" = None /\
  run no_failure (model_fn example_features example_labels EVAL ∅) []
  = (Raise (KeyError "use_tpu"),
     [Call_get_global_step; Call_gan_model; Call_dense 3; Call_dense 1;
      Call_dense 1] ++ []).
Proof.
  assert (Hv : (∅ : gmap string pyval) !! "use_tpu" = None) by reflexivity.
  split; [exact Hv|].
  exact (proj2 (model_fn_without_use_tpu no_failure [] example_features
                  example_labels EVAL ∅ Hv)).
Defined.

Lemma model_fn_eval_builds_no_training_witness :
  PREDICT <> TRAIN /\
  Forall (fun c => builds_training c = false)
         [Call_get_global_step; Call_gan_model; Call_dense 3; Call_dense 1;
          Call_dense 1; Call_spec TPUEstimatorSpec].
Proof.
  assert (Hm : PREDICT <> TRAIN) by discriminate.
  assert (Hrun :
    run no_failure
        (model_fn example_features example_labels PREDICT
                  {["use_tpu" := PBool true]}) []
    = (Ok (Spec TPUEstimatorSpec PREDICT
                (generated_data
                   (built_gan_model [] example_features example_labels))
                None None),
       [Call_get_global_step; Call_gan_model; Call_dense 3; Call_dense 1;
        Call_dense 1; Call_spec TPUEstimatorSpec]))
    by (vm_compute; reflexivity).
  split; [exact Hm|].
  exact (model_fn_eval_builds_no_training no_failure [] example_features
           example_labels PREDICT {["use_tpu" := PBool true]} _ _ Hm Hrun).
Defined.



Lemma batches_keep_rows_aligned_witness :
  exists it,
    batches nat (fun _ i j => (100 * i + j)%nat) (fun _ => O)
            (built_dataset [] 2) = Some it /\
    get it 0 = Some ([[0; 1; 2; 3; 4]; [100; 101; 102; 103; 104]]%nat,
                     [[0; 1; 2]; [100; 101; 102]]%nat) /\
    List.Forall (aligned (fun _ i j => (100 * i + j)%nat) [])
      (List.combine [[0; 1; 2; 3; 4]; [100; 101; 102; 103; 104]]%nat
                    [[0; 1; 2]; [100; 101; 102]]%nat).
Proof.
  assert (Hrun :
    run no_failure (train_input_fn {["train_batch_size" := PInt 2]}) []
    = (Ok (built_dataset [] 2), input_calls (PInt 2)))
    by (vm_compute; reflexivity).
  assert (Hex : exists it,
    batches nat (fun _ i j => (100 * i + j)%nat) (fun _ => O)
            (built_dataset [] 2) = Some it /\
    get it 0 = Some ([[0; 1; 2; 3; 4]; [100; 101; 102; 103; 104]]%nat,
                     [[0; 1; 2]; [100; 101; 102]]%nat))
    by (eexists; split; [reflexivity|vm_compute; reflexivity]).
  destruct Hex as (it & Hit & Hget).
  exists it. split; [exact Hit|]. split; [exact Hget|].
  exact (proj2 (batches_keep_rows_aligned no_failure [] _ _ _ Hrun nat _ _
                  it 0%nat _ Hit Hget)).
Defined.



Lemma tpu_address_only_on_tpu_path_witness :
  run no_failure (main (Namespace "/tmp/tpu-template" 16 10 false (Some "host"))) []
  = (Ok tt, main_calls "/tmp/tpu-template" 16 10 false (Some "host")) /\
  Forall (fun c => is_tpu_setup c = false)
         (main_calls "/tmp/tpu-template" 16 10 false (Some "host")).
Proof.
  assert (Hrun :
    run no_failure
        (main (Namespace "/tmp/tpu-template" 16 10 false (Some "host"))) []
    = (Ok tt, main_calls "/tmp/tpu-template" 16 10 false (Some "host")))
    by (vm_compute; reflexivity).
  split; [exact Hrun|].
  exact (proj1 (tpu_address_only_on_tpu_path no_failure [] _ _ _ _ _ _) Hrun).
Defined.

Lemma main_reads_two_attributes_on_cpu_path_witness :
  ({["use_tpu" := PBool false; "model_dir" := PStr "/tmp/m"]}
     : gmap string pyval) !! "use_tpu" = Some (PBool false) /\
  truthy (PBool false) = false /\
  ({["use_tpu" := PBool false; "model_dir" := PStr "/tmp/m"]}
     : gmap string pyval) !! "model_dir" = Some (PStr "/tmp/m") /\
  run no_failure
      (main {["use_tpu" := PBool false; "model_dir" := PStr "/tmp/m"]}) []
  = (Ok tt,
     cpu_calls {["use_tpu" := PBool false; "model_dir" := PStr "/tmp/m"]}
               (PStr "/tmp/m")).
Proof.
  assert (Hu : ({["use_tpu" := PBool false; "model_dir" := PStr "/tmp/m"]}
                  : gmap string pyval) !! "use_tpu" = Some (PBool false))
    by (vm_compute; reflexivity).
  assert (Hd : ({["use_tpu" := PBool false; "model_dir" := PStr "/tmp/m"]}
                  : gmap string pyval) !! "model_dir" = Some (PStr "/tmp/m"))
    by (vm_compute; reflexivity).
  split; [exact Hu|]. split; [reflexivity|]. split; [exact Hd|].
  exact (proj2 (proj2 (main_reads_two_attributes_on_cpu_path no_failure [] _)
                  _ Hu eq_refl) _ Hd).
Defined.


Lemma colab_tpu_runtime_forces_tpu_path_witness :
  "google.colab" ∈ modules example_world /\
  parse_known_args script_parser (argv example_world)
  = Ok (Namespace "/tmp/tpu-template" 32 10 false None, []) /\
  estimators_built (snd (run no_failure (script example_world) []))
  = [built_estimator "gs://your-gcs-bucket" 32 10 true
                     (Some "grpc://10.0.0.2:8470")].
Proof.
  assert (Hcolab : "google.colab" ∈ modules example_world)
    by (vm_compute; reflexivity).
  assert (Henv : environ example_world !! "COLAB_TPU_ADDR" = Some "10.0.0.2:8470")
    by (vm_compute; reflexivity).
  assert (Hfile : files example_world !! "/content/adc.json" = Some "{}")
    by (vm_compute; reflexivity).
  assert (Hp : parse_known_args script_parser (argv example_world)
               = Ok (Namespace "/tmp/tpu-template" 32 10 false None, []))
    by (vm_compute; reflexivity).
  split; [exact Hcolab|]. split; [exact Hp|].
  rewrite (colab_tpu_runtime_forces_tpu_path [] example_world _ _ _ _ _ _ _ _
             Hcolab Henv Hfile Hp).
  reflexivity.
Defined.

Lemma colab_without_tpu_runtime_witness :
  "google.colab" ∈ modules world_without_tpu /\
  environ world_without_tpu !! "COLAB_TPU_ADDR" = None /\
  parse_known_args script_parser (argv world_without_tpu)
  = Ok (Namespace "/tmp/mine" 16 10 false (Some "host"), []) /\
  run no_failure (script_args world_without_tpu) []
  = (Ok (Namespace "gs://your-gcs-bucket" 16 10 false (Some "host")),
     [Call_authenticate_user]).
Proof.
  assert (Hcolab : "google.colab" ∈ modules world_without_tpu)
    by (vm_compute; reflexivity).
  assert (Henv : environ world_without_tpu !! "COLAB_TPU_ADDR" = None)
    by (vm_compute; reflexivity).
  assert (Hp : parse_known_args script_parser (argv world_without_tpu)
               = Ok (Namespace "/tmp/mine" 16 10 false (Some "host"), []))
    by (vm_compute; reflexivity).
  split; [exact Hcolab|]. split; [exact Henv|]. split; [exact Hp|].
  exact (colab_without_tpu_runtime no_failure [] world_without_tpu _ _ _ _ _ _
           Hcolab Henv Hp).
Defined.

Lemma session_is_always_left_witness :
  run fails_json_load (script_args example_world) []
  = (Raise (ValueError "No JSON object could be decoded"),
     [Call_authenticate_user; Call_Session "grpc://10.0.0.2:8470";
      Call_open "/content/adc.json"; Call_json_load;
      Call_Session_exit "grpc://10.0.0.2:8470"]) /\
  ((last [Call_authenticate_user; Call_Session "grpc://10.0.0.2:8470";
          Call_open "/content/adc.json"; Call_json_load;
          Call_Session_exit "grpc://10.0.0.2:8470"]
    = Some (Call_Session "grpc://10.0.0.2:8470") /\
    exists e, @Raise (gmap string pyval)
                (ValueError "No JSON object could be decoded") = Raise e) \/
   last [Call_authenticate_user; Call_Session "grpc://10.0.0.2:8470";
         Call_open "/content/adc.json"; Call_json_load;
         Call_Session_exit "grpc://10.0.0.2:8470"]
   = Some (Call_Session_exit "grpc://10.0.0.2:8470")).
Proof.
  assert (Hrun :
    run fails_json_load (script_args example_world) []
    = (Raise (ValueError "No JSON object could be decoded"),
       [Call_authenticate_user; Call_Session "grpc://10.0.0.2:8470";
        Call_open "/content/adc.json"; Call_json_load;
        Call_Session_exit "grpc://10.0.0.2:8470"]))
    by (vm_compute; reflexivity).
  split; [exact Hrun|].
  apply (session_is_always_left fails_json_load [] example_world _ _
           "grpc://10.0.0.2:8470" Hrun).
  right. left. reflexivity.
Defined.

Lemma missing_credentials_stop_the_script_witness :
  "google.colab" ∈ modules world_without_credentials /\
  files world_without_credentials !! "/content/adc.json" = None /\
  run no_failure (script world_without_credentials) []
  = (Raise (IOError "/content/adc.json"),
     [Call_authenticate_user; Call_Session "grpc://10.0.0.2:8470";
      Call_open "/content/adc.json";
      Call_Session_exit "grpc://10.0.0.2:8470"]).
Proof.
  assert (Hcolab : "google.colab" ∈ modules world_without_credentials)
    by (vm_compute; reflexivity).
  assert (Henv : environ world_without_credentials !! "COLAB_TPU_ADDR"
                 = Some "10.0.0.2:8470") by (vm_compute; reflexivity).
  assert (Hfile : files world_without_credentials !! "/content/adc.json" = None)
    by (vm_compute; reflexivity).
  assert (Hp : parse_known_args script_parser (argv world_without_credentials)
               = Ok (Namespace "/tmp/tpu-template" 16 10 false None, []))
    by (vm_compute; reflexivity).
  split; [exact Hcolab|]. split; [exact Hfile|].
  exact (proj2 (missing_credentials_stop_the_script no_failure []
                  world_without_credentials _ _ _ Hcolab Henv Hfile Hp)).
Defined.

Lemma last_flag_wins_witness :
  ~ In "--" ["--tpu"; "a"; "--verbose"] /\
  parse_known_args script_parser ["--tpu"; "a"; "--verbose"]
  = Ok (Namespace "/tmp/tpu-template" 16 10 false (Some "a"), ["--verbose"]) /\
  parse_known_args script_parser (["--tpu"; "a"; "--verbose"] ++ ["--tp"; "b"])
  = Ok (<["tpu" := PStr "b"]>
          (Namespace "/tmp/tpu-template" 16 10 false (Some "a")),
        ["--verbose"]).
Proof.
  assert (Hdd : ~ In "--" ["--tpu"; "a"; "--verbose"]).
  { simpl. intros [E|[E|[E|[]]]]; discriminate. }
  assert (Hp : parse_known_args script_parser ["--tpu"; "a"; "--verbose"]
               = Ok (Namespace "/tmp/tpu-template" 16 10 false (Some "a"),
                     ["--verbose"])) by (vm_compute; reflexivity).
  assert (Hflag : parse_optional script_parser "--tp"
                  = Known (Argument "--tpu" (ActStore None) PNone) None)
    by (vm_compute; reflexivity).
  split; [exact Hdd|]. split; [exact Hp|].
  exact (proj1 (last_flag_wins _ _ _ _ _ Hdd Hp Hflag) None "b" (PStr "b")
           eq_refl eq_refl eq_refl).
Defined.

End MoreExamples.
